(** * useradm: the HTTP handlers of [api/http/api_useradm.go]

    A shallow embedding of the request handlers of the user administration
    service, and the status-code contract of each.

    The handlers talk to three collaborators: the response writer
    (go-json-rest on top of net/http), the application ([useradm.App]) and
    the data store ([store.DataStore]).  The response writer and the
    [rest_utils] helpers are written out after their libraries; the
    application and the store are Go interfaces and stay abstract: a record
    of state-passing functions over a backend state [S]. *)

From stdpp Require Import base strings list gmap.
From Stdlib Require Import ZArith Ascii.

(** ** Errors

    Go compares [error] values with [==], which on these values is pointer
    identity.  Every comparison in the handlers has a package-level sentinel
    on one side, so one constructor per sentinel, and one for each way of
    allocating a fresh error, gives the same answers. *)

Inductive error : Type :=
  | ErrAuthHeader                      (* this package, line 48 *)
  | ErrUserNotFound                    (* this package, line 49 *)
  | useradm_ErrUnauthorized
  | useradm_ErrTenantAccountSuspended
  | store_ErrDuplicateEmail
  | store_ErrUserNotFound
  | model_ErrPasswordTooShort
  | rest_ErrJsonPayloadEmpty
  | errors_New (msg : string)
  | errors_Wrap (cause : error) (msg : string).

#[global] Instance error_eq_dec : EqDecision error.
Proof. solve_decision. Defined.

(** [err == sentinel] *)
Definition err_is (e sentinel : error) : bool := bool_decide (e = sentinel).

(** The text of [e.Error()].  The sentinels of the packages [useradm],
    [store] and [model] are declared outside this file, so the text is kept
    symbolic. *)
Inductive errtext : Type :=
  | Text (s : string)
  | ErrorOf (e : error).

(** ** Contexts and tenant identity *)

Record Identity := mkIdentity { Subject : string; Tenant : string }.

#[global] Instance Identity_eq_dec : EqDecision Identity.
Proof. solve_decision. Defined.

(** A non-nil [context.Context]: the background context, or a parent
    extended with a value.  Only the identity key is told apart. *)
Inductive ctxnode : Type :=
  | Background
  | WithIdentity (parent : ctxnode) (id : Identity)
  | WithOther (parent : ctxnode) (key val : string).

(** A variable of type [context.Context]; [None] is the nil interface. *)
Definition Context : Type := option ctxnode.

(** Outcome of a Go call that may panic. *)
Inductive result (A : Type) : Type :=
  | Done (a : A)
  | Panic (msg : string).
Arguments Done {A} a.
Arguments Panic {A} msg.

(** [identity.WithContext]: [context.WithValue] refuses a nil parent. *)
Definition identity_WithContext (ctx : Context) (id : Identity) : result Context :=
  match ctx with
  | None => Panic "cannot create context from nil parent"
  | Some c => Done (Some (WithIdentity c id))
  end.

(** [identity.FromContext]: the innermost identity, nil when there is none. *)
Fixpoint node_identity (c : ctxnode) : option Identity :=
  match c with
  | Background => None
  | WithIdentity _ id => Some id
  | WithOther p _ _ => node_identity p
  end.

Definition identity_FromContext (ctx : Context) : option Identity :=
  c ← ctx; node_identity c.

(** [getTenantContext], lines 380-393. *)
Definition getTenantContext (ctx : Context) (tenantId : string) : result Context :=
  let ctx := match ctx with None => Some Background | Some _ => ctx end in
  if negb (String.eqb tenantId "") then
    let id := {| Subject := ""; Tenant := tenantId |} in
    identity_WithContext ctx id
  else Done ctx.

(** ** net/http and go-json-rest *)

Definition StatusOK : Z := 200.
Definition StatusCreated : Z := 201.
Definition StatusNoContent : Z := 204.
Definition StatusBadRequest : Z := 400.
Definition StatusUnauthorized : Z := 401.
Definition StatusNotFound : Z := 404.
Definition StatusUnprocessableEntity : Z := 422.
Definition StatusInternalServerError : Z := 500.

(** [http.Header], a map from (canonical) names to their values. *)
Abbreviation Header := (gmap string (list string)).

Definition Header_Get (h : Header) (k : string) : string :=
  match h !! k with
  | Some (v :: _) => v
  | _ => ""
  end.

Definition Header_Set (h : Header) (k v : string) : Header := <[k := [v]]> h.

Definition Header_Add (h : Header) (k v : string) : Header :=
  <[k := default [] (h !! k) ++ [v]]> h.

(** What a handler receives.  Routing, the query string and the request id
    are parsed before the handler runs, so the request carries them parsed. *)
Record Request := mkRequest {
  r_ctx : Context;                      (* the context the server attached *)
  r_Header : Header;
  r_Body : string;
  r_PathParams : gmap string string;    (* rest.Request.PathParams *)
  r_Query : gmap string (list string);  (* r.URL.Query() *)
  r_ReqId : string                      (* requestid.GetReqId(r) *)
}.

(** [r.Context()] never returns nil. *)
Definition Request_Context (r : Request) : Context :=
  match r_ctx r with
  | None => Some Background
  | Some c => Some c
  end.

(** [r.PathParam(name)]: a Go map read, the empty string when absent. *)
Definition PathParam (r : Request) (name : string) : string :=
  default "" (r_PathParams r !! name).

(** [r.URL.Query().Get(key)]: the first value, or the empty string. *)
Definition Query_Get (r : Request) (key : string) : string :=
  match r_Query r !! key with
  | Some (v :: _) => v
  | _ => ""
  end.

(** Package [model] is declared outside this file: its types, the one field
    the handlers read and its validators are an interface here. *)
Class Model := {
  User : Type;
  UserInternal : Type;
  UserUpdate : Type;
  Token : Type;
  Settings : Type;                                  (* map[string]interface{} *)
  User_ID : User → string;                          (* user.ID *)
  User_ValidateNew : User → option error;
  UserInternal_ValidateNew : UserInternal → option error;
  UserUpdate_Validate : UserUpdate → option error
}.

(** The decoders of encoding/json and net/http, by target type. *)
Class Codec `{Model} := {
  unmarshal_User : string → error + User;
  unmarshal_UserInternal : string → error + UserInternal;
  unmarshal_UserUpdate : string → error + UserUpdate;
  unmarshal_Settings : string → error + Settings;
  parseBasicAuth : string → option (string * string)
}.

(** [useradm.App], the methods the handlers below call, over a backend
    state [S].  A method that takes a pointer may write through it:
    [CreateUser] hands the struct back, since the handler reads it
    afterwards. *)
Record App `{Model} (S : Type) := mkApp {
  Login : Context → string → string → S → (option Token * option error) * S;
  SignToken : Context → option Token → S → (string * option error) * S;
  CreateUser : Context → User → S → (User * option error) * S;
  CreateUserInternal : Context → UserInternal → S → option error * S;
  GetUser : Context → string → S → (option User * option error) * S;
  UpdateUser : Context → string → UserUpdate → S → option error * S;
  DeleteTokens : Context → string → string → S → option error * S
}.
Arguments Login {_ S} _ _ _ _ _.
Arguments SignToken {_ S} _ _ _ _.
Arguments CreateUser {_ S} _ _ _ _.
Arguments CreateUserInternal {_ S} _ _ _ _.
Arguments GetUser {_ S} _ _ _ _.
Arguments UpdateUser {_ S} _ _ _ _ _.
Arguments DeleteTokens {_ S} _ _ _ _ _.

(** [store.DataStore], likewise. *)
Record DataStore `{Model} (S : Type) := mkDataStore {
  SaveSettings : Context → Settings → S → option error * S
}.
Arguments SaveSettings {_ S} _ _ _ _.

(** What is written to the client. *)
Inductive JsonBody `{Model} : Type :=
  | ApiError (Err : errtext) (ReqId : string)   (* rest_utils.ApiError *)
  | JsonUser (u : User).

Inductive Chunk `{Model} : Type :=
  | Raw (bytes : string)
  | Json (v : JsonBody).

(** go-json-rest's response writer over net/http's.  [rw_sent] is the status
    line and header block that went out: the first [WriteHeader] commits
    them and net/http drops later ones.  [rw_codes] keeps every code the
    handler passed to [WriteHeader], in order. *)
Record ResponseWriter `{Model} := mkRW {
  rw_header : Header;
  rw_wroteHeader : bool;
  rw_sent : option (Z * Header);
  rw_body : list Chunk;
  rw_codes : list Z
}.

Definition newResponseWriter `{Model} : ResponseWriter :=
  {| rw_header := ∅; rw_wroteHeader := false; rw_sent := None;
     rw_body := []; rw_codes := [] |}.

(** [w.Header().Set] and [w.Header().Add] *)
Definition rw_Set `{Model} (k v : string) (w : ResponseWriter) : ResponseWriter :=
  {| rw_header := Header_Set (rw_header w) k v;
     rw_wroteHeader := rw_wroteHeader w; rw_sent := rw_sent w;
     rw_body := rw_body w; rw_codes := rw_codes w |}.

Definition rw_Add `{Model} (k v : string) (w : ResponseWriter) : ResponseWriter :=
  {| rw_header := Header_Add (rw_header w) k v;
     rw_wroteHeader := rw_wroteHeader w; rw_sent := rw_sent w;
     rw_body := rw_body w; rw_codes := rw_codes w |}.

(** [w.WriteHeader(code)]: the JSON content type is filled in when none is
    set, then the code goes to net/http. *)
Definition rw_WriteHeader `{Model} (code : Z) (w : ResponseWriter) : ResponseWriter :=
  let h := if String.eqb (Header_Get (rw_header w) "Content-Type") ""
           then Header_Set (rw_header w) "Content-Type" "application/json"
           else rw_header w in
  {| rw_header := h;
     rw_wroteHeader := true;
     rw_sent := match rw_sent w with
                | Some sent => Some sent
                | None => Some (code, h)
                end;
     rw_body := rw_body w;
     rw_codes := rw_codes w ++ [code] |}.

(** [w.Write(b)]: an implicit 200 when no header was written yet. *)
Definition rw_Write `{Model} (c : Chunk) (w : ResponseWriter) : ResponseWriter :=
  let w := if rw_wroteHeader w then w else rw_WriteHeader StatusOK w in
  {| rw_header := rw_header w; rw_wroteHeader := rw_wroteHeader w;
     rw_sent := rw_sent w; rw_body := rw_body w ++ [c];
     rw_codes := rw_codes w |}.

(** The status the client sees. *)
Definition status `{Model} (w : ResponseWriter) : option Z := fst <$> rw_sent w.

(** A header of the response the client sees. *)
Definition sentHeader `{Model} (w : ResponseWriter) (k : string) : option (list string) :=
  '(_, h) ← rw_sent w; h !! k.

(** A call on a collaborator, with its arguments. *)
Inductive Call `{Model} : Type :=
  | CallLogin (ctx : Context) (email pass : string)
  | CallSignToken (ctx : Context) (t : option Token)
  | CallCreateUser (ctx : Context) (u : User)
  | CallCreateUserInternal (ctx : Context) (u : UserInternal)
  | CallGetUser (ctx : Context) (id : string)
  | CallUpdateUser (ctx : Context) (id : string) (u : UserUpdate)
  | CallDeleteTokens (ctx : Context) (tenantId userId : string)
  | CallSaveSettings (ctx : Context) (s : Settings).

(** Everything a handler can touch. *)
Record World `{Model} (S : Type) := mkWorld {
  resp : ResponseWriter;
  backend : S;
  calls : list Call;       (* collaborator calls made so far *)
  logged : list (error * errtext)   (* server log: errors.Wrap(e, msg).Error() *)
}.
Arguments mkWorld {_ S} _ _ _ _.
Arguments resp {_ S} _.
Arguments backend {_ S} _.
Arguments calls {_ S} _.
Arguments logged {_ S} _.

Definition newWorld `{Model} {S} (s : S) : World S :=
  {| resp := newResponseWriter; backend := s; calls := []; logged := [] |}.

(** Handler code: a state transformer that may panic. *)
Definition Act `{Model} (S A : Type) : Type := World S → result A * World S.

Section Handlers.

Context `{Codec} {S : Type}.
Context (userAdm : App S) (db : DataStore S).

#[local] Instance Act_ret : MRet (Act S) := λ A a w, (Done a, w).
#[local] Instance Act_bind : MBind (Act S) := λ A B f m w,
  match m w with
  | (Done a, w') => f a w'
  | (Panic msg, w') => (Panic msg, w')
  end.

Definition panic {A} (msg : string) : Act S A := λ w, (Panic msg, w).

Definition liftResult {A} (x : result A) : Act S A := λ w, (x, w).

Definition onWriter (f : ResponseWriter → ResponseWriter) : Act S unit := λ w,
  (Done (), {| resp := f (resp w); backend := backend w;
               calls := calls w; logged := logged w |}).

(** Run a collaborator method on the backend and note the call. *)
Definition invoke {A} (c : Call) (f : S → A * S) : Act S A := λ w,
  let '(a, s') := f (backend w) in
  (Done a, {| resp := resp w; backend := s';
              calls := calls w ++ [c]; logged := logged w |}).

Definition logError (e : error) (msg : errtext) : Act S unit := λ w,
  (Done (), {| resp := resp w; backend := backend w;
               calls := calls w; logged := logged w ++ [(e, msg)] |}).

Definition WriteHeader (code : Z) : Act S unit := onWriter (rw_WriteHeader code).

(** [w.WriteJson(v)]: encode, then [Write].  Encoding the values the
    handlers pass does not fail, so the error returned is nil. *)
Definition WriteJson (v : JsonBody) : Act S (option error) :=
  onWriter (rw_Write (Json v));; mret None.

(** ** go-lib-micro/rest_utils *)

Definition RestErrWithLogMsg (r : Request) (e : error) (code : Z) (msg : errtext)
  : Act S unit :=
  WriteHeader code;;
  err ← WriteJson (ApiError msg (r_ReqId r));
  match err with
  | Some _ => panic "WriteJson"
  | None => logError e msg
  end.

Definition RestErrWithLog (r : Request) (e : error) (code : Z) : Act S unit :=
  RestErrWithLogMsg r e code (ErrorOf e).

Definition RestErrWithLogInternal (r : Request) (e : error) : Act S unit :=
  let msg := "internal error" in
  let e := errors_Wrap e msg in
  RestErrWithLogMsg r e StatusInternalServerError (Text msg).

(** ** Reading the request *)

(** [r.BasicAuth()]: no Authorization header, or one that does not parse,
    gives [ok = false]. *)
Definition BasicAuth (r : Request) : option (string * string) :=
  let auth := Header_Get (r_Header r) "Authorization" in
  if String.eqb auth "" then None else parseBasicAuth auth.

(** [r.DecodeJsonPayload(&v)]: an empty body is an error of its own. *)
Definition DecodeJsonPayload {T} (unmarshal : string → error + T) (r : Request)
  : error + T :=
  if String.eqb (r_Body r) "" then inl rest_ErrJsonPayloadEmpty
  else unmarshal (r_Body r).

(** [parseUser], lines 290-304. *)
Definition parseUser (r : Request) : error + User :=
  match DecodeJsonPayload unmarshal_User r with
  | inl err => inl (errors_Wrap err "failed to decode request body")
  | inr user =>
      match User_ValidateNew user with
      | Some err => inl err
      | None => inr user
      end
  end.

(** [parseUserInternal], lines 306-320. *)
Definition parseUserInternal (r : Request) : error + UserInternal :=
  match DecodeJsonPayload unmarshal_UserInternal r with
  | inl err => inl (errors_Wrap err "failed to decode request body")
  | inr user =>
      match UserInternal_ValidateNew user with
      | Some err => inl err
      | None => inr user
      end
  end.

(** [parseUserUpdate], lines 322-336. *)
Definition parseUserUpdate (r : Request) : error + UserUpdate :=
  match DecodeJsonPayload unmarshal_UserUpdate r with
  | inl err => inl (errors_Wrap err "failed to decode request body")
  | inr userUpdate =>
      match UserUpdate_Validate userUpdate with
      | Some err => inl err
      | None => inr userUpdate
      end
  end.

(** ** The handlers *)

(** [AuthLoginHandler], lines 95-127. *)
Definition AuthLoginHandler (r : Request) : Act S unit :=
  let ctx := Request_Context r in
  match BasicAuth r with
  | None => RestErrWithLog r ErrAuthHeader StatusUnauthorized
  | Some (email, pass) =>
      '(token, err) ← invoke (CallLogin ctx email pass) (Login userAdm ctx email pass);
      match err with
      | Some err =>
          if err_is err useradm_ErrUnauthorized
             || err_is err useradm_ErrTenantAccountSuspended
          then RestErrWithLog r err StatusUnauthorized
          else RestErrWithLogInternal r err
      | None =>
          '(raw, err) ← invoke (CallSignToken ctx token) (SignToken userAdm ctx token);
          match err with
          | Some err => RestErrWithLogInternal r err
          | None =>
              onWriter (rw_Set "Content-Type" "application/jwt");;
              onWriter (rw_Write (Raw raw))
          end
      end
  end.

(** [CreateTenantUserHandler], lines 150-179. *)
Definition CreateTenantUserHandler (r : Request) : Act S unit :=
  let ctx := Request_Context r in
  match parseUserInternal r with
  | inl err => RestErrWithLog r err StatusBadRequest
  | inr user =>
      let tenantId := PathParam r "id" in
      if String.eqb tenantId "" then
        RestErrWithLog r (errors_New "Entity not found") StatusNotFound
      else
        ctx ← liftResult (getTenantContext ctx tenantId);
        err ← invoke (CallCreateUserInternal ctx user)
                     (CreateUserInternal userAdm ctx user);
        match err with
        | Some err =>
            if err_is err store_ErrDuplicateEmail
            then RestErrWithLog r err StatusUnprocessableEntity
            else RestErrWithLogInternal r err
        | None => WriteHeader StatusCreated
        end
  end.

(** [AddUserHandler], lines 181-209. *)
Definition AddUserHandler (r : Request) : Act S unit :=
  let ctx := Request_Context r in
  match parseUser r with
  | inl err =>
      if err_is err model_ErrPasswordTooShort
      then RestErrWithLog r err StatusUnprocessableEntity
      else RestErrWithLog r err StatusBadRequest
  | inr user =>
      '(user, err) ← invoke (CallCreateUser ctx user) (CreateUser userAdm ctx user);
      match err with
      | Some err =>
          if err_is err store_ErrDuplicateEmail
          then RestErrWithLog r err StatusUnprocessableEntity
          else RestErrWithLogInternal r err
      | None =>
          onWriter (rw_Add "Location" ("users/" +:+ User_ID user));;
          WriteHeader StatusCreated
      end
  end.

(** [GetUserHandler], lines 225-242. *)
Definition GetUserHandler (r : Request) : Act S unit :=
  let ctx := Request_Context r in
  let id := PathParam r "id" in
  '(user, err) ← invoke (CallGetUser ctx id) (GetUser userAdm ctx id);
  match err with
  | Some err => RestErrWithLogInternal r err
  | None =>
      match user with
      | None => RestErrWithLog r ErrUserNotFound 404
      | Some user => WriteJson (JsonUser user);; mret ()
      end
  end.

(** [UpdateUserHandler], lines 244-274.  The error switch of lines 262-271
    has no return: control falls through to line 273. *)
Definition UpdateUserHandler (r : Request) : Act S unit :=
  let ctx := Request_Context r in
  let id := PathParam r "id" in
  match parseUserUpdate r with
  | inl err =>
      if err_is err model_ErrPasswordTooShort
      then RestErrWithLog r err StatusUnprocessableEntity
      else RestErrWithLog r err StatusBadRequest
  | inr userUpdate =>
      err ← invoke (CallUpdateUser ctx id userUpdate)
                   (UpdateUser userAdm ctx id userUpdate);
      match err with
      | Some err =>
          if err_is err store_ErrDuplicateEmail
          then RestErrWithLog r err StatusUnprocessableEntity
          else if err_is err store_ErrUserNotFound
          then RestErrWithLog r err StatusNotFound
          else RestErrWithLogInternal r err
      | None => mret ()
      end;;
      WriteHeader StatusNoContent
  end.

(** [DeleteTokensHandler], lines 395-415. *)
Definition DeleteTokensHandler (r : Request) : Act S unit :=
  let ctx := Request_Context r in
  let tenantId := Query_Get r "tenant_id" in
  if String.eqb tenantId "" then
    RestErrWithLog r (errors_New "tenant_id must be provided") StatusBadRequest
  else
    let userId := Query_Get r "user_id" in
    err ← invoke (CallDeleteTokens ctx tenantId userId)
                 (DeleteTokens userAdm ctx tenantId userId);
    match err with
    | None => WriteHeader StatusNoContent
    | Some err => RestErrWithLogInternal r err
    end.

(** [SaveSettingsHandler], lines 417-436.  Line 433 has no return either. *)
Definition SaveSettingsHandler (r : Request) : Act S unit :=
  let ctx := Request_Context r in
  match DecodeJsonPayload unmarshal_Settings r with
  | inl _ =>
      RestErrWithLog r (errors_New "cannot parse request body as json")
                     StatusBadRequest
  | inr settings =>
      err ← invoke (CallSaveSettings ctx settings) (SaveSettings db ctx settings);
      match err with
      | Some err => RestErrWithLogInternal r err
      | None => mret ()
      end;;
      WriteHeader StatusCreated
  end.

(** Serve one request on a fresh response writer. *)
Definition serve (h : Request → Act S unit) (r : Request) (s : S)
  : result unit * World S :=
  h r (newWorld s).

End Handlers.

(** ** A small deployment

    A concrete model, codec, application and store to run the handlers on:
    an in-memory user list.  Bodies are read as [email password]. *)
Module Sample.

Record user := mkUser { uid : string; email : string; password : string }.

Definition minPasswordLength : nat := 8.

Definition validate (u : user) : option error :=
  if String.eqb (email u) "" then Some (errors_New "email can't be empty")
  else if Nat.ltb (String.length (password u)) minPasswordLength
  then Some model_ErrPasswordTooShort
  else None.

#[export] Instance model : Model := {|
  User := user;
  UserInternal := user;
  UserUpdate := user;
  Token := string;
  Settings := string;
  User_ID := uid;
  User_ValidateNew := validate;
  UserInternal_ValidateNew := validate;
  UserUpdate_Validate := validate
|}.

(** The text before the first space is the email, the rest the password;
    a body without a space does not decode. *)
Fixpoint split_space (s : string) : option (string * string) :=
  match s with
  | EmptyString => None
  | String c rest =>
      if Ascii.eqb c " "%char then Some (EmptyString, rest)
      else '(a, b) ← split_space rest; Some (String c a, b)
  end.

Definition unmarshal_user (s : string) : error + user :=
  match split_space s with
  | Some (e, p) => inr {| uid := ""; email := e; password := p |}
  | None => inl (errors_New "unexpected end of JSON input")
  end.

Definition unmarshal_settings (s : string) : error + string :=
  if String.eqb s "{" then inl (errors_New "unexpected end of JSON input")
  else inr s.

#[export] Instance codec : Codec := {|
  unmarshal_User := unmarshal_user;
  unmarshal_UserInternal := unmarshal_user;
  unmarshal_UserUpdate := unmarshal_user;
  unmarshal_Settings := unmarshal_settings;
  parseBasicAuth := split_space
|}.

Definition db_state : Type := list user.

Definition by_email (e : string) (u : user) : bool := String.eqb (email u) e.
Definition by_id (i : string) (u : user) : bool := String.eqb (uid u) i.

Definition tenant_of (ctx : Context) : string :=
  match identity_FromContext ctx with
  | Some id => Tenant id
  | None => ""
  end.

Definition login (ctx : Context) (e p : string) (s : db_state)
  : (option string * option error) * db_state :=
  match List.find (by_email e) s with
  | Some u =>
      if negb (String.eqb (password u) p) then (None, Some useradm_ErrUnauthorized, s)
      else if String.eqb (tenant_of ctx) "frozen"
      then (None, Some useradm_ErrTenantAccountSuspended, s)
      else (Some (uid u), None, s)
  | None => (None, Some useradm_ErrUnauthorized, s)
  end.

Definition sign (key_ok : bool) (ctx : Context) (t : option string) (s : db_state)
  : (string * option error) * db_state :=
  match t with
  | Some sub => if key_ok then ("jwt." +:+ sub, None, s)
                else ("", Some (errors_New "no signing key"), s)
  | None => ("", Some (errors_New "no token"), s)
  end.

Definition create (ctx : Context) (u : user) (s : db_state)
  : (user * option error) * db_state :=
  match List.find (by_email (email u)) s with
  | Some _ => (u, Some store_ErrDuplicateEmail, s)
  | None =>
      let u' := {| uid := "id-" +:+ email u; email := email u;
                   password := password u |} in
      (u', None, s ++ [u'])
  end.

Definition create_internal (ctx : Context) (u : user) (s : db_state)
  : option error * db_state :=
  let '(_, err, s') := create ctx u s in (err, s').

Definition get (ctx : Context) (i : string) (s : db_state)
  : (option user * option error) * db_state :=
  if String.eqb i "!" then (None, Some store_ErrUserNotFound, s)
  else (List.find (by_id i) s, None, s).

Definition update (ctx : Context) (i : string) (u : user) (s : db_state)
  : option error * db_state :=
  match List.find (by_id i) s with
  | None => (Some store_ErrUserNotFound, s)
  | Some old =>
      match List.find (by_email (email u)) s with
      | Some other =>
          if String.eqb (uid other) i then
            (None, List.map (λ x, if by_id i x
                                  then {| uid := i; email := email u;
                                          password := password u |}
                                  else x) s)
          else (Some store_ErrDuplicateEmail, s)
      | None =>
          (None, List.map (λ x, if by_id i x
                                then {| uid := i; email := email u;
                                        password := password u |}
                                else x) s)
      end
  end.

Definition delete_tokens (ctx : Context) (tenant usr : string) (s : db_state)
  : option error * db_state :=
  if String.eqb tenant "down" then (Some (errors_New "no reachable servers"), s)
  else (None, s).

Definition app (key_ok : bool) : App db_state := {|
  Login := login;
  SignToken := sign key_ok;
  CreateUser := create;
  CreateUserInternal := create_internal;
  GetUser := get;
  UpdateUser := update;
  DeleteTokens := delete_tokens
|}.

(** A store that saves, and one whose writes fail. *)
Definition store (up : bool) : DataStore db_state := {|
  SaveSettings := λ ctx settings s,
    if up then (None, s) else (Some (errors_New "no reachable servers"), s)
|}.

Definition alice : user :=
  {| uid := "1"; email := "alice@acme.io"; password := "secret123" |}.
Definition bob : user :=
  {| uid := "2"; email := "bob@acme.io"; password := "hunter2hunter2" |}.

Definition acme : db_state := [alice; bob].

Definition request (body : string) : Request :=
  {| r_ctx := Some Background; r_Header := ∅; r_Body := body;
     r_PathParams := ∅; r_Query := ∅; r_ReqId := "req-1" |}.

Definition with_id (i : string) (r : Request) : Request :=
  {| r_ctx := r_ctx r; r_Header := r_Header r; r_Body := r_Body r;
     r_PathParams := <["id" := i]> (r_PathParams r);
     r_Query := r_Query r; r_ReqId := r_ReqId r |}.

Definition with_auth (a : string) (r : Request) : Request :=
  {| r_ctx := r_ctx r; r_Header := Header_Set (r_Header r) "Authorization" a;
     r_Body := r_Body r; r_PathParams := r_PathParams r;
     r_Query := r_Query r; r_ReqId := r_ReqId r |}.

Definition with_query (k v : string) (r : Request) : Request :=
  {| r_ctx := r_ctx r; r_Header := r_Header r; r_Body := r_Body r;
     r_PathParams := r_PathParams r;
     r_Query := <[k := [v]]> (r_Query r); r_ReqId := r_ReqId r |}.

Definition in_tenant (t : string) (r : Request) : Request :=
  {| r_ctx := Some (WithIdentity Background {| Subject := ""; Tenant := t |});
     r_Header := r_Header r; r_Body := r_Body r;
     r_PathParams := r_PathParams r;
     r_Query := r_Query r; r_ReqId := r_ReqId r |}.

End Sample.

(** What one served request shows: the status the client sees, every code
    passed to [WriteHeader], the body, and the calls made. *)
Definition seen `{Model} {S} (out : result unit * World S)
  : option Z * list Z * list Chunk * list Call :=
  (status (resp out.2), rw_codes (resp out.2), rw_body (resp out.2), calls out.2).


(** ** The rest of the file

    [AuthVerifyHandler], [DeleteUserHandler] and [CreateTenantHandler].
    ([GetUsersHandler] and [GetSettingsHandler] write a user list and a
    settings map as JSON; [readBodyRaw] has no caller.) *)

(** [ctx.Value(key)] for a key other than the identity's. *)
Fixpoint node_value (c : ctxnode) (key : string) : option string :=
  match c with
  | Background => None
  | WithIdentity p _ => node_value p key
  | WithOther p k v => if String.eqb k key then Some v else node_value p key
  end.

Definition Context_Value (ctx : Context) (key : string) : option string :=
  c ← ctx; node_value c key.

(** [newTenantRequest], lines 348-350: one field, tagged [valid:"required"]. *)
Record newTenantRequest := mkNewTenantRequest { TenantID : string }.

(** [model.NewTenant], as the literal of lines 369-371 builds it. *)
Record NewTenant := mkNewTenant { NewTenant_ID : string }.

(** The methods of [useradm.App] these three handlers call.  [ReqToken] is
    what [authz.GetRequestToken] returns. *)
Record AppRest (ReqToken S : Type) := mkAppRest {
  Verify : Context → ReqToken → S → option error * S;
  DeleteUser : Context → string → S → option error * S;
  CreateTenant : Context → NewTenant → S → option error * S
}.
Arguments Verify {ReqToken S} _ _ _ _.
Arguments DeleteUser {ReqToken S} _ _ _ _.
Arguments CreateTenant {ReqToken S} _ _ _ _.

(** [govalidator.ValidateStruct] on a [newTenantRequest]: [required]
    refuses the zero value of the field, with an error of the library. *)
Definition ValidateStruct (required : error) (t : newTenantRequest) : option error :=
  if String.eqb (TenantID t) "" then Some required else None.

Section HandlersRest.

Context `{Codec} {S ReqToken : Type}.

(** [authz.GetRequestToken(r.Env)]: the token the authorization middleware
    left with the request.  Package [authz] is outside this file. *)
Context (GetRequestToken : Request → ReqToken).
Context (unmarshal_newTenantRequest : string → error + newTenantRequest).
Context (ErrRequired : error).
Context (userAdm : AppRest ReqToken S).

#[local] Existing Instance Act_ret.
#[local] Existing Instance Act_bind.

(** Run one of these methods on the backend.  ([calls] lists the calls to
    [App] and [DataStore].) *)
Definition run {A} (f : S → A * S) : Act S A := λ w,
  let '(a, s') := f (backend w) in
  (Done a, {| resp := resp w; backend := s';
              calls := calls w; logged := logged w |}).

(** [AuthVerifyHandler], lines 129-148. *)
Definition AuthVerifyHandler (r : Request) : Act S unit :=
  let ctx := Request_Context r in
  let token := GetRequestToken r in
  err ← run (Verify userAdm ctx token);
  match err with
  | Some err =>
      if err_is err useradm_ErrUnauthorized
      then RestErrWithLog r useradm_ErrUnauthorized StatusUnauthorized
      else RestErrWithLogInternal r err
  | None => WriteHeader StatusOK
  end.

(** [DeleteUserHandler], lines 276-288. *)
Definition DeleteUserHandler (r : Request) : Act S unit :=
  let ctx := Request_Context r in
  err ← run (DeleteUser userAdm ctx (PathParam r "id"));
  match err with
  | Some err => RestErrWithLogInternal r err
  | None => WriteHeader StatusNoContent
  end.

(** [CreateTenantHandler], lines 352-378. *)
Definition CreateTenantHandler (r : Request) : Act S unit :=
  let ctx := Request_Context r in
  match DecodeJsonPayload unmarshal_newTenantRequest r with
  | inl err => RestErrWithLog r err StatusBadRequest
  | inr newTenant =>
      match ValidateStruct ErrRequired newTenant with
      | Some err => RestErrWithLog r err StatusBadRequest
      | None =>
          err ← run (CreateTenant userAdm ctx
                       {| NewTenant_ID := TenantID newTenant |});
          match err with
          | Some err => RestErrWithLogInternal r err
          | None => WriteHeader StatusCreated
          end
      end
  end.

End HandlersRest.

(** The rest of the sample deployment: tokens are read from the
    Authorization header, and a tenant request body is the tenant id. *)
Module SampleRest.


Definition unmarshal_tenant (s : string) : error + newTenantRequest :=
  if String.eqb s "{" then inl (errors_New "unexpected end of JSON input")
  else if String.eqb s "{}" then inr {| TenantID := "" |}
  else inr {| TenantID := s |}.

Definition required : error := errors_New "non zero value required".

Definition verify (ctx : Context) (t : string) (s : Sample.db_state)
  : option error * Sample.db_state :=
  if String.eqb t "expired" then (Some useradm_ErrUnauthorized, s)
  else if String.eqb (Sample.tenant_of ctx) "frozen"
  then (Some useradm_ErrTenantAccountSuspended, s)
  else (None, s).

Definition delete_user (ctx : Context) (i : string) (s : Sample.db_state)
  : option error * Sample.db_state :=
  if String.eqb i "!" then (Some store_ErrUserNotFound, s)
  else (None, List.filter (λ u, negb (Sample.by_id i u)) s).

Definition create_tenant (ctx : Context) (t : NewTenant) (s : Sample.db_state)
  : option error * Sample.db_state :=
  if String.eqb (NewTenant_ID t) "acme"
  then (Some (errors_New "tenant exists"), s)
  else (None, s).

Definition app : AppRest string Sample.db_state := {|
  Verify := verify;
  DeleteUser := delete_user;
  CreateTenant := create_tenant
|}.

(** An application whose backend cannot be reached. *)
Definition unreachable : error := errors_New "no reachable servers".

Definition down_app : @App Sample.model Sample.db_state := {|
  Login := λ _ _ _ s, (None, Some unreachable, s);
  SignToken := λ _ _ s, (EmptyString, Some unreachable, s);
  CreateUser := λ _ u s, (u, Some unreachable, s);
  CreateUserInternal := λ _ _ s, (Some unreachable, s);
  GetUser := λ _ _ s, (None, Some unreachable, s);
  UpdateUser := λ _ _ _ s, (Some unreachable, s);
  DeleteTokens := λ _ _ _ s, (Some unreachable, s)
|}.

End SampleRest.

(** * Contracts *)

Section Contracts.

Context `{Codec} {S : Type}.

#[local] Arguments Header_Get : simpl never.
#[local] Arguments Header_Set : simpl never.
#[local] Arguments Header_Add : simpl never.
#[local] Arguments PathParam : simpl never.
#[local] Arguments Query_Get : simpl never.
#[local] Arguments String.eqb : simpl never.

(** Unfold one handler down to the writer and the collaborator calls. *)
Ltac open_handler :=
  unfold seen, serve, AuthLoginHandler, CreateTenantUserHandler, AddUserHandler,
    GetUserHandler, UpdateUserHandler, DeleteTokensHandler, SaveSettingsHandler;
  unfold RestErrWithLog, RestErrWithLogInternal, RestErrWithLogMsg,
    WriteJson, WriteHeader, logError, onWriter, invoke, liftResult, panic,
    mbind, mret, Act_bind, Act_ret, newWorld;
  cbn [resp backend calls logged fst snd].

Ltac tidy := cbn [resp backend calls logged fst snd].

(** C3: a Login that fails on the credentials and a Login that fails on a
    suspended tenant account answer with the same status, 401, whatever
    the two requests, applications and backend states are. *)
Theorem login_suspended_same_status_as_bad_credentials
    (app1 app2 : App S) (r1 r2 : Request) (s1 s2 s1' s2' : S)
    (email1 pass1 email2 pass2 : string) (t1 t2 : option Token) :
  BasicAuth r1 = Some (email1, pass1) →
  BasicAuth r2 = Some (email2, pass2) →
  Login app1 (Request_Context r1) email1 pass1 s1
    = (t1, Some useradm_ErrUnauthorized, s1') →
  Login app2 (Request_Context r2) email2 pass2 s2
    = (t2, Some useradm_ErrTenantAccountSuspended, s2') →
  let out1 := serve (AuthLoginHandler app1) r1 s1 in
  let out2 := serve (AuthLoginHandler app2) r2 s2 in
  status (resp out1.2) = Some StatusUnauthorized ∧
  status (resp out2.2) = Some StatusUnauthorized ∧
  status (resp out1.2) = status (resp out2.2) ∧
  rw_codes (resp out1.2) = rw_codes (resp out2.2).
Proof.
  intros Ha1 Ha2 Hl1 Hl2. open_handler.
  rewrite Ha1, Ha2. cbn [resp backend calls logged fst snd]. rewrite Hl1, Hl2.
  cbn. done.
Qed.

(** C10: [getTenantContext] always returns, and returns a non-nil context.
    A non-empty tenant id is carried by the identity of the result; with an
    empty tenant id a non-nil input comes back as it is, its identity (if
    any) untouched; a nil input behaves as the background context. *)
Theorem getTenantContext_total (ctx : Context) (tenantId : string) :
  ∃ c : ctxnode,
    getTenantContext ctx tenantId = Done (Some c) ∧
    (tenantId ≠ "" →
       ∃ id, identity_FromContext (Some c) = Some id ∧ Tenant id = tenantId) ∧
    (tenantId = "" →
       (∀ c0, ctx = Some c0 → c = c0) ∧
       identity_FromContext (Some c) = identity_FromContext ctx) ∧
    (ctx = None →
       getTenantContext ctx tenantId = getTenantContext (Some Background) tenantId ∧
       (tenantId = "" → c = Background) ∧
       (tenantId ≠ "" → ∃ id, c = WithIdentity Background id)).
Proof.
  unfold getTenantContext.
  destruct (String.eqb_spec tenantId "") as [->|Hne]; cbn [negb].
  - destruct ctx as [c0|].
    + exists c0. split_and!; [done|done|naive_solver|done].
    + exists Background. split_and!; [done|done|naive_solver|naive_solver].
  - destruct ctx as [c0|]; cbn [identity_WithContext].
    + exists (WithIdentity c0 {| Subject := ""; Tenant := tenantId |}).
      split_and!; [done|by eexists|done|done].
    + exists (WithIdentity Background {| Subject := ""; Tenant := tenantId |}).
      split_and!; [done|by eexists|done|].
      intros _. split_and!; [done|done|by eexists].
Qed.

(** The context a handler builds for an internal call on behalf of a tenant. *)
Lemma getTenantContext_request (r : Request) (tenantId : string) :
  tenantId ≠ "" →
  ∃ c, Request_Context r = Some c ∧
       getTenantContext (Request_Context r) tenantId
         = Done (Some (WithIdentity c {| Subject := ""; Tenant := tenantId |})).
Proof.
  intros Hne. unfold getTenantContext, Request_Context.
  destruct (String.eqb_spec tenantId "") as [?|_]; [done|].
  destruct (r_ctx r) as [c|]; eexists; split; reflexivity.
Qed.

(** C4: CreateTenantUser.  A body that does not parse or validate gives
    400 whatever the tenant id is; a parsed body with an empty tenant id
    gives 404; otherwise CreateUserInternal is called once, under a context
    whose identity carries the tenant id of the path, and DuplicateEmail
    gives 422, success 201. *)
Theorem CreateTenantUserHandler_contract (userAdm : App S) (r : Request) (s : S) :
  let out := serve (CreateTenantUserHandler userAdm) r s in
  let tenantId := PathParam r "id" in
  (∀ e, parseUserInternal r = inl e →
     status (resp out.2) = Some StatusBadRequest ∧ calls out.2 = []) ∧
  (∀ u, parseUserInternal r = inr u → tenantId = "" →
     status (resp out.2) = Some StatusNotFound ∧ calls out.2 = []) ∧
  (∀ u, parseUserInternal r = inr u → tenantId ≠ "" →
     ∃ c, Request_Context r = Some c ∧
       let ctx := Some (WithIdentity c {| Subject := ""; Tenant := tenantId |}) in
       calls out.2 = [CallCreateUserInternal ctx u] ∧
       (∃ id, identity_FromContext ctx = Some id ∧ Tenant id = tenantId) ∧
       (∀ s', CreateUserInternal userAdm ctx u s = (Some store_ErrDuplicateEmail, s') →
          status (resp out.2) = Some StatusUnprocessableEntity) ∧
       (∀ s', CreateUserInternal userAdm ctx u s = (None, s') →
          status (resp out.2) = Some StatusCreated ∧
          rw_codes (resp out.2) = [StatusCreated] ∧ out.1 = Done ())).
Proof.
  cbv zeta. split_and!.
  - intros e He. open_handler. rewrite He. done.
  - intros u Hu Hid. open_handler. rewrite Hu, Hid. done.
  - intros u Hu Hid.
    destruct (getTenantContext_request r _ Hid) as (c & Hc & Hctx).
    exists c. split; [done|].
    open_handler. rewrite Hu, Hctx.
    destruct (String.eqb_spec (PathParam r "id") "") as [?|_]; [done|].
    tidy. destruct (CreateUserInternal userAdm _ u s) as [err s1] eqn:Hcall.
    split_and!.
    + by destruct err as [e|]; [destruct (err_is e _)|].
    + by eexists.
    + intros s' [= -> ->]. done.
    + intros s' [= -> ->]. done.
Qed.

(** C6: RevokeTokens.  Without a tenant id the answer is 400 and nothing
    is revoked; with one, DeleteTokens is called once with the user id of
    the query, supplied or not, a nil result gives 204 and any error the
    generic internal error.  The handler never answers 404. *)
Theorem DeleteTokensHandler_contract (userAdm : App S) (r : Request) (s : S) :
  let out := serve (DeleteTokensHandler userAdm) r s in
  let tenantId := Query_Get r "tenant_id" in
  let userId := Query_Get r "user_id" in
  (r_Query r !! "tenant_id" = None → tenantId = "") ∧
  (tenantId = "" →
     status (resp out.2) = Some StatusBadRequest ∧
     calls out.2 = [] ∧ backend out.2 = s) ∧
  (tenantId ≠ "" →
     calls out.2 = [CallDeleteTokens (Request_Context r) tenantId userId] ∧
     (∀ s', DeleteTokens userAdm (Request_Context r) tenantId userId s = (None, s') →
        status (resp out.2) = Some StatusNoContent ∧
        rw_codes (resp out.2) = [StatusNoContent] ∧
        rw_body (resp out.2) = []) ∧
     (∀ e s', DeleteTokens userAdm (Request_Context r) tenantId userId s = (Some e, s') →
        status (resp out.2) = Some StatusInternalServerError ∧
        rw_body (resp out.2) = [Json (ApiError (Text "internal error") (r_ReqId r))])) ∧
  status (resp out.2) ≠ Some StatusNotFound.
Proof.
  cbv zeta. split_and!.
  - intros Hq. unfold Query_Get. by rewrite Hq.
  - intros Hid. open_handler. rewrite Hid. done.
  - intros Hid. open_handler.
    destruct (String.eqb_spec (Query_Get r "tenant_id") "") as [?|_]; [done|].
    tidy. destruct (DeleteTokens userAdm _ _ _ s) as [err s1] eqn:Hcall.
    split_and!.
    + by destruct err.
    + intros s' [= -> ->]. done.
    + intros e s' [= -> ->]. done.
  - open_handler.
    destruct (String.eqb_spec (Query_Get r "tenant_id") "") as [?|_]; [done|].
    tidy. destruct (DeleteTokens userAdm _ _ _ s) as [[e|] s1]; done.
Qed.

(** C7: GetUser.  404 with the user-not-found error exactly when the
    application returns a nil user and a nil error; a user returned with a
    nil error is written as JSON with status 200; any error, whatever its
    kind, gives the generic internal error. *)
Theorem GetUserHandler_contract (userAdm : App S) (r : Request) (s s' : S)
    (user : option User) (err : option error) :
  GetUser userAdm (Request_Context r) (PathParam r "id") s = (user, err, s') →
  let out := serve (GetUserHandler userAdm) r s in
  (status (resp out.2) = Some StatusNotFound ↔ user = None ∧ err = None) ∧
  (user = None → err = None →
     rw_body (resp out.2) = [Json (ApiError (ErrorOf ErrUserNotFound) (r_ReqId r))]) ∧
  (∀ u, user = Some u → err = None →
     status (resp out.2) = Some StatusOK ∧
     rw_body (resp out.2) = [Json (JsonUser u)]) ∧
  (∀ e, err = Some e →
     status (resp out.2) = Some StatusInternalServerError ∧
     rw_body (resp out.2) = [Json (ApiError (Text "internal error") (r_ReqId r))]).
Proof.
  intros Hcall. cbv zeta. open_handler. rewrite Hcall.
  destruct err as [e|], user as [u|]; cbn; split_and!; try done;
    try (split; [done|intros [? ?]; done]); intros; simplify_eq; done.
Qed.

(** C8: public CreateUser.  On success the answer is 201 with the header
    Location: users/<id>, the id being the one the application wrote into
    the user; on DuplicateEmail it is 422 and no Location header is set. *)
Theorem AddUserHandler_contract (userAdm : App S) (r : Request) (s : S) (u : User) :
  parseUser r = inr u →
  let out := serve (AddUserHandler userAdm) r s in
  (∀ u' s', CreateUser userAdm (Request_Context r) u s = (u', None, s') →
     status (resp out.2) = Some StatusCreated ∧
     rw_codes (resp out.2) = [StatusCreated] ∧
     sentHeader (resp out.2) "Location" = Some ["users/" +:+ User_ID u']) ∧
  (∀ u' s', CreateUser userAdm (Request_Context r) u s
              = (u', Some store_ErrDuplicateEmail, s') →
     status (resp out.2) = Some StatusUnprocessableEntity ∧
     rw_codes (resp out.2) = [StatusUnprocessableEntity] ∧
     sentHeader (resp out.2) "Location" = None ∧
     rw_header (resp out.2) !! "Location" = None).
Proof.
  intros Hu. cbv zeta. split.
  - intros u' s' Hcall. open_handler. rewrite Hu. tidy. rewrite Hcall.
    split_and!; [done|done|]. vm_compute. reflexivity.
  - intros u' s' Hcall. open_handler. rewrite Hu. tidy. rewrite Hcall.
    split_and!; [done|done|vm_compute; reflexivity|vm_compute; reflexivity].
Qed.

(** C9: Login.  Without a usable basic-auth header the answer is 401 and
    Login is not called; when Login and SignToken succeed it is 200, the
    body is the signed token and the content type application/jwt; when
    SignToken fails it is the generic internal error, not 401. *)
Theorem AuthLoginHandler_contract (userAdm : App S) (r : Request) (s : S) :
  let out := serve (AuthLoginHandler userAdm) r s in
  let auth := Header_Get (r_Header r) "Authorization" in
  (r_Header r !! "Authorization" = None → auth = "") ∧
  (auth = "" ∨ parseBasicAuth auth = None →
     status (resp out.2) = Some StatusUnauthorized ∧
     calls out.2 = [] ∧ backend out.2 = s) ∧
  (∀ email pass token raw s1 s2,
     BasicAuth r = Some (email, pass) →
     Login userAdm (Request_Context r) email pass s = (token, None, s1) →
     SignToken userAdm (Request_Context r) token s1 = (raw, None, s2) →
     status (resp out.2) = Some StatusOK ∧
     rw_body (resp out.2) = [Raw raw] ∧
     sentHeader (resp out.2) "Content-Type" = Some ["application/jwt"]) ∧
  (∀ email pass token raw e s1 s2,
     BasicAuth r = Some (email, pass) →
     Login userAdm (Request_Context r) email pass s = (token, None, s1) →
     SignToken userAdm (Request_Context r) token s1 = (raw, Some e, s2) →
     status (resp out.2) = Some StatusInternalServerError ∧
     status (resp out.2) ≠ Some StatusUnauthorized ∧
     rw_body (resp out.2) = [Json (ApiError (Text "internal error") (r_ReqId r))]).
Proof.
  cbv zeta. split_and!.
  - intros Hh. unfold Header_Get. by rewrite Hh.
  - intros Hauth.
    assert (BasicAuth r = None) as Hb.
    { unfold BasicAuth. destruct Hauth as [-> | Hp]; [done|].
      rewrite Hp. by destruct (String.eqb _ _). }
    open_handler. rewrite Hb. done.
  - intros email pass token raw s1 s2 Hb Hl Hs.
    open_handler. rewrite Hb. tidy. rewrite Hl. tidy. rewrite Hs.
    split_and!; [done|done|vm_compute; reflexivity].
  - intros email pass token raw e s1 s2 Hb Hl Hs.
    open_handler. rewrite Hb. tidy. rewrite Hl. tidy. rewrite Hs.
    split_and!; done.
Qed.

(** *** The handlers that fall through after an error *)

(** What [UpdateUserHandler] answers, case by case: the status the client
    sees is the one of the table, but after a failed update the handler
    goes on to [WriteHeader(204)]. *)
Lemma UpdateUserHandler_cases (userAdm : App S) (r : Request) (s : S) :
  let out := serve (UpdateUserHandler userAdm) r s in
  (parseUserUpdate r = inl model_ErrPasswordTooShort →
     rw_codes (resp out.2) = [StatusUnprocessableEntity]) ∧
  (∀ e, parseUserUpdate r = inl e → e ≠ model_ErrPasswordTooShort →
     rw_codes (resp out.2) = [StatusBadRequest]) ∧
  (∀ u err s', parseUserUpdate r = inr u →
     UpdateUser userAdm (Request_Context r) (PathParam r "id") u s = (err, s') →
     match err with
     | None => rw_codes (resp out.2) = [StatusNoContent]
     | Some e =>
         rw_codes (resp out.2) =
           [ if err_is e store_ErrDuplicateEmail then StatusUnprocessableEntity
             else if err_is e store_ErrUserNotFound then StatusNotFound
             else StatusInternalServerError ;
             StatusNoContent ]
     end).
Proof.
  cbv zeta. split_and!.
  - intros Hp. open_handler. rewrite Hp. done.
  - intros e Hp Hne. open_handler. rewrite Hp.
    unfold err_is. rewrite bool_decide_eq_false_2 by done. done.
  - intros u err s' Hp Hcall. open_handler. rewrite Hp. tidy. rewrite Hcall.
    destruct err as [e|]; [|done].
    by destruct (err_is e store_ErrDuplicateEmail), (err_is e store_ErrUserNotFound).
Qed.

(** [SaveSettingsHandler] likewise: a body that does not decode gives 400
    and the store is not called; a failed save gives 500 and then
    [WriteHeader(201)]. *)
Lemma SaveSettingsHandler_cases (db : DataStore S) (r : Request) (s : S) :
  let out := serve (SaveSettingsHandler db) r s in
  (∀ e, DecodeJsonPayload unmarshal_Settings r = inl e →
     status (resp out.2) = Some StatusBadRequest ∧
     rw_codes (resp out.2) = [StatusBadRequest] ∧
     calls out.2 = [] ∧ backend out.2 = s) ∧
  (∀ m err s', DecodeJsonPayload unmarshal_Settings r = inr m →
     SaveSettings db (Request_Context r) m s = (err, s') →
     match err with
     | None => rw_codes (resp out.2) = [StatusCreated]
     | Some e => rw_codes (resp out.2) = [StatusInternalServerError; StatusCreated]
     end).
Proof.
  cbv zeta. split.
  - intros e Hp. open_handler. rewrite Hp. done.
  - intros m err s' Hp Hcall. open_handler. rewrite Hp. tidy. rewrite Hcall.
    by destruct err.
Qed.

(** The password policy on the two public paths: 422, not 400. *)
Lemma AddUserHandler_password_too_short (userAdm : App S) (r : Request) (s : S) :
  parseUser r = inl model_ErrPasswordTooShort →
  seen (serve (AddUserHandler userAdm) r s)
    = (Some StatusUnprocessableEntity, [StatusUnprocessableEntity],
       [Json (ApiError (ErrorOf model_ErrPasswordTooShort) (r_ReqId r))], []).
Proof. intros Hp. open_handler. rewrite Hp. done. Qed.

Lemma UpdateUserHandler_password_too_short (userAdm : App S) (r : Request) (s : S) :
  parseUserUpdate r = inl model_ErrPasswordTooShort →
  seen (serve (UpdateUserHandler userAdm) r s)
    = (Some StatusUnprocessableEntity, [StatusUnprocessableEntity],
       [Json (ApiError (ErrorOf model_ErrPasswordTooShort) (r_ReqId r))], []).
Proof. intros Hp. open_handler. rewrite Hp. done. Qed.

(** The internal path has no such case: every parse error is a 400. *)
Lemma CreateTenantUserHandler_parse_error (userAdm : App S) (r : Request) (s : S) e :
  parseUserInternal r = inl e →
  seen (serve (CreateTenantUserHandler userAdm) r s)
    = (Some StatusBadRequest, [StatusBadRequest],
       [Json (ApiError (ErrorOf e) (r_ReqId r))], []).
Proof. intros Hp. open_handler. rewrite Hp. done. Qed.

End Contracts.

(** * Further contracts *)

Section MoreContracts.

Context `{Codec} {S : Type}.

#[local] Arguments Header_Get : simpl never.
#[local] Arguments Header_Set : simpl never.
#[local] Arguments Header_Add : simpl never.
#[local] Arguments PathParam : simpl never.
#[local] Arguments Query_Get : simpl never.
#[local] Arguments String.eqb : simpl never.

Ltac open_all :=
  unfold seen, serve, AuthLoginHandler, CreateTenantUserHandler, AddUserHandler,
    GetUserHandler, UpdateUserHandler, DeleteTokensHandler, SaveSettingsHandler,
    AuthVerifyHandler, DeleteUserHandler, CreateTenantHandler;
  unfold RestErrWithLog, RestErrWithLogInternal, RestErrWithLogMsg,
    WriteJson, WriteHeader, logError, onWriter, invoke, run, liftResult, panic,
    mbind, mret, Act_bind, Act_ret, newWorld;
  cbn [resp backend calls logged fst snd].

Ltac neat := cbn [resp backend calls logged fst snd].


(** What a successful parse tells about the body. *)
Lemma DecodeJsonPayload_inr {T} (unmarshal : string → error + T) r v :
  DecodeJsonPayload unmarshal r = inr v →
  r_Body r ≠ "" ∧ unmarshal (r_Body r) = inr v.
Proof.
  unfold DecodeJsonPayload.
  destruct (String.eqb_spec (r_Body r) "") as [?|Hne]; [done|]. by intros ->.
Qed.

Lemma parseUser_inr r u :
  parseUser r = inr u →
  r_Body r ≠ "" ∧ unmarshal_User (r_Body r) = inr u ∧ User_ValidateNew u = None.
Proof.
  unfold parseUser.
  destruct (DecodeJsonPayload unmarshal_User r) as [e|v] eqn:Hd; [done|].
  destruct (User_ValidateNew v) eqn:Hv; [done|]. intros [= <-].
  by destruct (DecodeJsonPayload_inr _ _ _ Hd).
Qed.

Lemma parseUserInternal_inr r u :
  parseUserInternal r = inr u →
  r_Body r ≠ "" ∧ unmarshal_UserInternal (r_Body r) = inr u ∧
  UserInternal_ValidateNew u = None.
Proof.
  unfold parseUserInternal.
  destruct (DecodeJsonPayload unmarshal_UserInternal r) as [e|v] eqn:Hd; [done|].
  destruct (UserInternal_ValidateNew v) eqn:Hv; [done|]. intros [= <-].
  by destruct (DecodeJsonPayload_inr _ _ _ Hd).
Qed.

Lemma parseUserUpdate_inr r u :
  parseUserUpdate r = inr u →
  r_Body r ≠ "" ∧ unmarshal_UserUpdate (r_Body r) = inr u ∧
  UserUpdate_Validate u = None.
Proof.
  unfold parseUserUpdate.
  destruct (DecodeJsonPayload unmarshal_UserUpdate r) as [e|v] eqn:Hd; [done|].
  destruct (UserUpdate_Validate v) eqn:Hv; [done|]. intros [= <-].
  by destruct (DecodeJsonPayload_inr _ _ _ Hd).
Qed.

(** The calls each of the three handlers makes. *)
Lemma AddUserHandler_calls (userAdm : App S) r s :
  calls (serve (AddUserHandler userAdm) r s).2 =
    match parseUser r with
    | inl _ => []
    | inr u => [CallCreateUser (Request_Context r) u]
    end.
Proof.
  open_all. destruct (parseUser r) as [e|v]; [by destruct (err_is e _)|].
  neat. destruct (CreateUser userAdm _ v s) as [[v' [e|]] s1]; [|done].
  by destruct (err_is e _).
Qed.

Lemma CreateTenantUserHandler_calls (userAdm : App S) r s :
  calls (serve (CreateTenantUserHandler userAdm) r s).2 =
    match parseUserInternal r, Request_Context r with
    | inr u, Some c =>
        if String.eqb (PathParam r "id") "" then []
        else [CallCreateUserInternal
                (Some (WithIdentity c {| Subject := "";
                                         Tenant := PathParam r "id" |})) u]
    | _, _ => []
    end.
Proof.
  open_all. destruct (parseUserInternal r) as [e|v]; [done|].
  destruct (String.eqb_spec (PathParam r "id") "") as [?|Hne].
  { by destruct (Request_Context r). }
  destruct (getTenantContext_request r _ Hne) as (c & Hc & Hctx).
  rewrite Hctx, Hc. neat.
  destruct (CreateUserInternal userAdm _ v s) as [[e|] s1]; [|done].
  by destruct (err_is e _).
Qed.

Lemma UpdateUserHandler_calls (userAdm : App S) r s :
  calls (serve (UpdateUserHandler userAdm) r s).2 =
    match parseUserUpdate r with
    | inl _ => []
    | inr u => [CallUpdateUser (Request_Context r) (PathParam r "id") u]
    end.
Proof.
  open_all. destruct (parseUserUpdate r) as [e|v]; [by destruct (err_is e _)|].
  neat. destruct (UpdateUser userAdm _ _ v s) as [[e|] s1]; [|done].
  by destruct (err_is e store_ErrDuplicateEmail), (err_is e store_ErrUserNotFound).
Qed.

(** X1: the application only ever receives what was decoded from a
    non-empty body and passed its validator: the user of CreateUser, the
    user of CreateUserInternal (under the tenant of the path, which is not
    empty) and the update of UpdateUser (with the id of the path). *)
Theorem application_receives_validated_input
    (userAdm : App S) (r : Request) (s : S) :
  (∀ ctx u, CallCreateUser ctx u ∈ calls (serve (AddUserHandler userAdm) r s).2 →
     ctx = Request_Context r ∧ r_Body r ≠ "" ∧
     unmarshal_User (r_Body r) = inr u ∧ User_ValidateNew u = None) ∧
  (∀ ctx u,
     CallCreateUserInternal ctx u
       ∈ calls (serve (CreateTenantUserHandler userAdm) r s).2 →
     PathParam r "id" ≠ "" ∧
     identity_FromContext ctx
       = Some {| Subject := ""; Tenant := PathParam r "id" |} ∧
     r_Body r ≠ "" ∧
     unmarshal_UserInternal (r_Body r) = inr u ∧
     UserInternal_ValidateNew u = None) ∧
  (∀ ctx id u,
     CallUpdateUser ctx id u ∈ calls (serve (UpdateUserHandler userAdm) r s).2 →
     ctx = Request_Context r ∧ id = PathParam r "id" ∧ r_Body r ≠ "" ∧
     unmarshal_UserUpdate (r_Body r) = inr u ∧ UserUpdate_Validate u = None).
Proof.
  split_and!.
  - intros ctx u. rewrite AddUserHandler_calls.
    destruct (parseUser r) as [e|v] eqn:Hp; [by intros ?%elem_of_nil|].
    intros [= -> ->]%list_elem_of_singleton.
    by destruct (parseUser_inr _ _ Hp) as (? & ? & ?).
  - intros ctx u. rewrite CreateTenantUserHandler_calls.
    destruct (parseUserInternal r) as [e|v] eqn:Hp; [by intros ?%elem_of_nil|].
    destruct (Request_Context r) as [c|]; [|by intros ?%elem_of_nil].
    destruct (String.eqb_spec (PathParam r "id") "") as [?|Hne];
      [by intros ?%elem_of_nil|].
    intros [= -> ->]%list_elem_of_singleton.
    by destruct (parseUserInternal_inr _ _ Hp) as (? & ? & ?).
  - intros ctx id u. rewrite UpdateUserHandler_calls.
    destruct (parseUserUpdate r) as [e|v] eqn:Hp; [by intros ?%elem_of_nil|].
    intros [= -> -> ->]%list_elem_of_singleton.
    by destruct (parseUserUpdate_inr _ _ Hp) as (? & ? & ?).
Qed.

(** X2: a body that does not decode is a 400 on CreateUser and on
    UpdateUser, never a 422: the decoder's error is wrapped before the
    handler compares it, whatever it is.  An empty body is such a case.
    Nothing is called. *)
Theorem decode_failure_is_bad_request (userAdm : App S) (r : Request) (s : S) :
  let wrapped e := errors_Wrap e "failed to decode request body" in
  (∀ e, DecodeJsonPayload unmarshal_User r = inl e →
     seen (serve (AddUserHandler userAdm) r s)
       = (Some StatusBadRequest, [StatusBadRequest],
          [Json (ApiError (ErrorOf (wrapped e)) (r_ReqId r))], [])) ∧
  (∀ e, DecodeJsonPayload unmarshal_UserUpdate r = inl e →
     seen (serve (UpdateUserHandler userAdm) r s)
       = (Some StatusBadRequest, [StatusBadRequest],
          [Json (ApiError (ErrorOf (wrapped e)) (r_ReqId r))], [])) ∧
  (r_Body r = "" →
     DecodeJsonPayload unmarshal_User r = inl rest_ErrJsonPayloadEmpty ∧
     DecodeJsonPayload unmarshal_UserUpdate r = inl rest_ErrJsonPayloadEmpty).
Proof.
  cbv zeta. split_and!.
  - intros e He. open_all. unfold parseUser. rewrite He. done.
  - intros e He. open_all. unfold parseUserUpdate. rewrite He. done.
  - intros Hb. unfold DecodeJsonPayload. by rewrite Hb.
Qed.

(** X3: after a refused update the client sees the error, not the 204
    written after it: 422 for DuplicateEmail, 404 for UserNotFound, 500
    otherwise, with the error body; the backend is the one UpdateUser left.
    After an accepted update the client sees 204 and no body. *)
Theorem UpdateUserHandler_client_view
    (userAdm : App S) (r : Request) (s s' : S) (u : UserUpdate) (err : option error) :
  parseUserUpdate r = inr u →
  UpdateUser userAdm (Request_Context r) (PathParam r "id") u s = (err, s') →
  let out := serve (UpdateUserHandler userAdm) r s in
  backend out.2 = s' ∧
  match err with
  | None =>
      status (resp out.2) = Some StatusNoContent ∧ rw_body (resp out.2) = []
  | Some e =>
      if err_is e store_ErrDuplicateEmail then
        status (resp out.2) = Some StatusUnprocessableEntity ∧
        rw_body (resp out.2) = [Json (ApiError (ErrorOf e) (r_ReqId r))]
      else if err_is e store_ErrUserNotFound then
        status (resp out.2) = Some StatusNotFound ∧
        rw_body (resp out.2) = [Json (ApiError (ErrorOf e) (r_ReqId r))]
      else
        status (resp out.2) = Some StatusInternalServerError ∧
        rw_body (resp out.2)
          = [Json (ApiError (Text "internal error") (r_ReqId r))]
  end.
Proof.
  intros Hp Hcall. cbv zeta. open_all. rewrite Hp. neat. rewrite Hcall.
  destruct err as [e|]; [|done].
  by destruct (err_is e store_ErrDuplicateEmail), (err_is e store_ErrUserNotFound).
Qed.

(** X4: after a failed save the client sees the generic internal error,
    not the 201 written after it, and the error is in the server log; after
    a save that went through the client sees 201 and no body. *)
Theorem SaveSettingsHandler_client_view
    (db : DataStore S) (r : Request) (s s' : S) (m : Settings) (err : option error) :
  DecodeJsonPayload unmarshal_Settings r = inr m →
  SaveSettings db (Request_Context r) m s = (err, s') →
  let out := serve (SaveSettingsHandler db) r s in
  backend out.2 = s' ∧
  calls out.2 = [CallSaveSettings (Request_Context r) m] ∧
  match err with
  | None =>
      status (resp out.2) = Some StatusCreated ∧ rw_body (resp out.2) = [] ∧
      logged out.2 = []
  | Some e =>
      status (resp out.2) = Some StatusInternalServerError ∧
      rw_body (resp out.2) = [Json (ApiError (Text "internal error") (r_ReqId r))] ∧
      logged out.2 = [(errors_Wrap e "internal error", Text "internal error")]
  end.
Proof.
  intros Hp Hcall. cbv zeta. open_all. rewrite Hp. neat. rewrite Hcall.
  by destruct err.
Qed.

(** X5: when Login fails nothing is signed: Login is the only call, the
    backend is the one Login left, and the answer is 401 with the error's
    text for the two unauthorized kinds and the generic internal error for
    every other error. *)
Theorem AuthLoginHandler_login_failure
    (userAdm : App S) (r : Request) (s s1 : S)
    (email pass : string) (token : option Token) (e : error) :
  BasicAuth r = Some (email, pass) →
  Login userAdm (Request_Context r) email pass s = (token, Some e, s1) →
  let out := serve (AuthLoginHandler userAdm) r s in
  calls out.2 = [CallLogin (Request_Context r) email pass] ∧
  backend out.2 = s1 ∧
  (e = useradm_ErrUnauthorized ∨ e = useradm_ErrTenantAccountSuspended →
     status (resp out.2) = Some StatusUnauthorized ∧
     rw_body (resp out.2) = [Json (ApiError (ErrorOf e) (r_ReqId r))]) ∧
  (e ≠ useradm_ErrUnauthorized → e ≠ useradm_ErrTenantAccountSuspended →
     status (resp out.2) = Some StatusInternalServerError ∧
     rw_body (resp out.2) = [Json (ApiError (Text "internal error") (r_ReqId r))]).
Proof.
  intros Hb Hl. cbv zeta. open_all. rewrite Hb. neat. rewrite Hl.
  unfold err_is. split_and!.
  - by destruct (_ || _).
  - by destruct (_ || _).
  - intros [-> | ->]; done.
  - intros H1 H2. rewrite !bool_decide_eq_false_2 by done. done.
Qed.

(** X6: an internal error is opaque to the client: GetUser, and
    DeleteTokens with a tenant id, send the very same response whatever
    error the application returned and whatever the backend was, while the
    server log keeps the error. *)
Theorem internal_error_is_opaque
    (app1 app2 : App S) (r : Request) (s1 s2 s1' s2' : S) (e1 e2 : error) :
  (∀ u1 u2,
     GetUser app1 (Request_Context r) (PathParam r "id") s1 = (u1, Some e1, s1') →
     GetUser app2 (Request_Context r) (PathParam r "id") s2 = (u2, Some e2, s2') →
     resp (serve (GetUserHandler app1) r s1).2
       = resp (serve (GetUserHandler app2) r s2).2 ∧
     logged (serve (GetUserHandler app1) r s1).2
       = [(errors_Wrap e1 "internal error", Text "internal error")]) ∧
  (Query_Get r "tenant_id" ≠ "" →
   DeleteTokens app1 (Request_Context r) (Query_Get r "tenant_id")
     (Query_Get r "user_id") s1 = (Some e1, s1') →
   DeleteTokens app2 (Request_Context r) (Query_Get r "tenant_id")
     (Query_Get r "user_id") s2 = (Some e2, s2') →
   resp (serve (DeleteTokensHandler app1) r s1).2
     = resp (serve (DeleteTokensHandler app2) r s2).2 ∧
   logged (serve (DeleteTokensHandler app1) r s1).2
     = [(errors_Wrap e1 "internal error", Text "internal error")]).
Proof.
  split.
  - intros u1 u2 H1 H2. open_all. rewrite H1, H2. done.
  - intros Hne H1 H2. open_all.
    destruct (String.eqb_spec (Query_Get r "tenant_id") "") as [?|_]; [done|].
    neat. rewrite H1, H2. done.
Qed.


(** X8: CreateUser sends a Location header exactly when it answers 201. *)
Theorem AddUserHandler_location_iff_created
    (userAdm : App S) (r : Request) (s : S) :
  let out := serve (AddUserHandler userAdm) r s in
  is_Some (sentHeader (resp out.2) "Location")
  ↔ status (resp out.2) = Some StatusCreated.
Proof.
  cbv zeta.
  assert (∀ w : ResponseWriter, ∀ code : Z,
            sentHeader w "Location" = None → status w = Some code →
            code ≠ StatusCreated →
            is_Some (sentHeader w "Location") ↔ status w = Some StatusCreated)
    as no.
  { intros w code -> ->. split; [by intros [? ?]|congruence]. }
  open_all. destruct (parseUser r) as [e|v].
  { destruct (err_is e _);
      (eapply no; [vm_compute; reflexivity|reflexivity|done]). }
  neat. destruct (CreateUser userAdm _ v s) as [[v' [e|]] s1].
  - destruct (err_is e _);
      (eapply no; [vm_compute; reflexivity|reflexivity|done]).
  - split; [done|]. intros _. vm_compute. eauto.
Qed.

(** X9: attaching a tenant loses nothing of the context: every other value
    of the input is still found in the result.  Attaching twice, the last
    non-empty tenant id is the one found. *)
Theorem getTenantContext_keeps_values (ctx c1 c2 : Context) (t1 t2 : string) :
  getTenantContext ctx t1 = Done c1 →
  getTenantContext c1 t2 = Done c2 →
  (∀ key, Context_Value c1 key = Context_Value ctx key) ∧
  (∀ key, Context_Value c2 key = Context_Value ctx key) ∧
  (t2 ≠ "" → identity_FromContext c2 = Some {| Subject := ""; Tenant := t2 |}) ∧
  (t2 = "" → identity_FromContext c2 = identity_FromContext c1).
Proof.
  unfold getTenantContext.
  destruct (String.eqb_spec t1 "") as [->|H1], (String.eqb_spec t2 "") as [->|H2];
    destruct ctx as [c|]; cbn; intros [= <-]; cbn; intros [= <-]; done.
Qed.

(** X10: an error of the application that the handler does not single
    out is an internal error.  For CreateUser and CreateUserInternal that is
    every error but DuplicateEmail (a PasswordTooShort or a UserNotFound
    coming from the application is one); no Location header goes out. *)
Theorem unclassified_errors_are_internal
    (userAdm : App S) (r : Request) (s s' : S) (e : error) :
  e ≠ store_ErrDuplicateEmail →
  (∀ u u', parseUser r = inr u →
     CreateUser userAdm (Request_Context r) u s = (u', Some e, s') →
     let out := serve (AddUserHandler userAdm) r s in
     status (resp out.2) = Some StatusInternalServerError ∧
     rw_body (resp out.2) = [Json (ApiError (Text "internal error") (r_ReqId r))] ∧
     sentHeader (resp out.2) "Location" = None) ∧
  (∀ u c, parseUserInternal r = inr u → PathParam r "id" ≠ "" →
     Request_Context r = Some c →
     CreateUserInternal userAdm
       (Some (WithIdentity c {| Subject := ""; Tenant := PathParam r "id" |}))
       u s = (Some e, s') →
     let out := serve (CreateTenantUserHandler userAdm) r s in
     status (resp out.2) = Some StatusInternalServerError ∧
     rw_body (resp out.2) = [Json (ApiError (Text "internal error") (r_ReqId r))]).
Proof.
  intros Hne. split.
  - intros u u' Hp Hcall. cbv zeta. open_all. rewrite Hp. neat. rewrite Hcall.
    unfold err_is. rewrite bool_decide_eq_false_2 by done.
    split_and!; [done|done|vm_compute; reflexivity].
  - intros u c Hp Hid Hc Hcall. cbv zeta. open_all. rewrite Hp.
    destruct (String.eqb_spec (PathParam r "id") "") as [?|_]; [done|].
    destruct (getTenantContext_request r _ Hid) as (c' & Hc' & Hctx).
    rewrite Hctx. assert (c' = c) as -> by congruence.
    neat. rewrite Hcall.
    unfold err_is. rewrite bool_decide_eq_false_2 by done. done.
Qed.

End MoreContracts.

Section RestContracts.

Context `{Codec} {S ReqToken : Type}.
Context (GetRequestToken : Request → ReqToken).
Context (unmarshal_newTenantRequest : string → error + newTenantRequest).
Context (ErrRequired : error).

#[local] Arguments PathParam : simpl never.
#[local] Arguments String.eqb : simpl never.

Ltac open_rest :=
  unfold seen, serve, AuthVerifyHandler, DeleteUserHandler, CreateTenantHandler;
  unfold RestErrWithLog, RestErrWithLogInternal, RestErrWithLogMsg,
    WriteJson, WriteHeader, logError, onWriter, run, panic,
    mbind, mret, Act_bind, Act_ret, newWorld;
  cbn [resp backend calls logged fst snd].


(** X12: DeleteUser.  The user of the path is deleted with one call; a
    nil result gives 204 with no body, and any error gives the generic
    internal error: there is no 404 here, also when the application says
    the user is not found. *)
Theorem DeleteUserHandler_contract
    (userAdm : AppRest ReqToken S) (r : Request) (s s' : S) (err : option error) :
  DeleteUser userAdm (Request_Context r) (PathParam r "id") s = (err, s') →
  let out := serve (DeleteUserHandler userAdm) r s in
  out.1 = Done () ∧ backend out.2 = s' ∧
  (err = None →
     status (resp out.2) = Some StatusNoContent ∧
     rw_codes (resp out.2) = [StatusNoContent] ∧ rw_body (resp out.2) = []) ∧
  (∀ e, err = Some e →
     status (resp out.2) = Some StatusInternalServerError ∧
     rw_codes (resp out.2) = [StatusInternalServerError] ∧
     rw_body (resp out.2) = [Json (ApiError (Text "internal error") (r_ReqId r))] ∧
     logged out.2 = [(errors_Wrap e "internal error", Text "internal error")]).
Proof.
  intros Hcall. cbv zeta. open_rest. rewrite Hcall. split_and!.
  - by destruct err.
  - by destruct err.
  - by intros ->.
  - by intros e ->.
Qed.

(** X13: CreateTenant.  A body that does not decode gives 400 with the
    decoder's own error, and so does a decoded request whose tenant id is
    empty; in both cases the backend is left as it was, whatever the
    application is.  Otherwise CreateTenant receives the tenant id of the
    body: a nil result gives 201, an error the generic internal error. *)
Theorem CreateTenantHandler_contract
    (userAdm : AppRest ReqToken S) (r : Request) (s : S) :
  let out := serve (CreateTenantHandler unmarshal_newTenantRequest ErrRequired
                      userAdm) r s in
  out.1 = Done () ∧
  (∀ e, DecodeJsonPayload unmarshal_newTenantRequest r = inl e →
     status (resp out.2) = Some StatusBadRequest ∧
     rw_body (resp out.2) = [Json (ApiError (ErrorOf e) (r_ReqId r))] ∧
     backend out.2 = s) ∧
  (∀ t, DecodeJsonPayload unmarshal_newTenantRequest r = inr t →
     TenantID t = "" →
     status (resp out.2) = Some StatusBadRequest ∧
     rw_body (resp out.2) = [Json (ApiError (ErrorOf ErrRequired) (r_ReqId r))] ∧
     backend out.2 = s) ∧
  (∀ t err s', DecodeJsonPayload unmarshal_newTenantRequest r = inr t →
     TenantID t ≠ "" →
     CreateTenant userAdm (Request_Context r) {| NewTenant_ID := TenantID t |} s
       = (err, s') →
     backend out.2 = s' ∧
     match err with
     | None =>
         status (resp out.2) = Some StatusCreated ∧
         rw_codes (resp out.2) = [StatusCreated] ∧ rw_body (resp out.2) = []
     | Some e =>
         status (resp out.2) = Some StatusInternalServerError ∧
         rw_codes (resp out.2) = [StatusInternalServerError] ∧
         rw_body (resp out.2)
           = [Json (ApiError (Text "internal error") (r_ReqId r))]
     end).
Proof.
  cbv zeta. refine (conj _ (conj _ (conj _ _))).
  - open_rest. destruct (DecodeJsonPayload _ r) as [e|t]; [done|].
    unfold ValidateStruct. destruct (String.eqb (TenantID t) ""); [done|].
    cbn [resp backend calls logged fst snd].
    by destruct (CreateTenant userAdm _ _ s) as [[e|] s1].
  - intros e He. open_rest. rewrite He. done.
  - intros t Ht Hid. open_rest. rewrite Ht. unfold ValidateStruct.
    rewrite Hid. done.
  - intros t err s' Ht Hid Hcall. open_rest. rewrite Ht. unfold ValidateStruct.
    destruct (String.eqb_spec (TenantID t) "") as [?|_]; [done|].
    cbn [resp backend calls logged fst snd]. rewrite Hcall. by destruct err.
Qed.

End RestContracts.

Import Sample.

(** * The contracts on the sample deployment *)

(** C1: a request answers with exactly one status, and a failed update
    never has 204 written as well.  On the code this fails: for an update
    that the application refuses with DuplicateEmail (and likewise with
    UserNotFound) the handler writes the error status and then calls
    [WriteHeader(204)] too, since the error switch does not return. *)
Theorem UpdateUserHandler_failure_also_writes_204 :
  seen (serve (UpdateUserHandler (app true))
          (with_id "1" (request "bob@acme.io longenough")) acme)
    = (Some StatusUnprocessableEntity,
       [StatusUnprocessableEntity; StatusNoContent],
       [Json (ApiError (ErrorOf store_ErrDuplicateEmail) "req-1")],
       [CallUpdateUser (Some Background) "1"
          {| uid := ""; email := "bob@acme.io"; password := "longenough" |}])
  ∧ rw_codes (resp (serve (UpdateUserHandler (app true))
                      (with_id "7" (request "carol@acme.io longenough")) acme).2)
    = [StatusNotFound; StatusNoContent].
Proof. split; vm_compute; reflexivity. Qed.

(** C2: a body that fails the password policy is answered with 422, never
    400, on all three paths.  On the code this fails on the internal
    CreateTenantUser path: a password that is too short is answered with
    400 there, while the same body is answered with 422 by CreateUser and
    by UpdateUser. *)
Theorem CreateTenantUserHandler_password_too_short_is_400 :
  let r := with_id "acme" (request "carol@acme.io short") in
  parseUserInternal r = inl model_ErrPasswordTooShort ∧
  seen (serve (CreateTenantUserHandler (app true)) r acme)
    = (Some StatusBadRequest, [StatusBadRequest],
       [Json (ApiError (ErrorOf model_ErrPasswordTooShort) "req-1")], []) ∧
  status (resp (serve (AddUserHandler (app true)) r acme).2)
    = Some StatusUnprocessableEntity ∧
  status (resp (serve (UpdateUserHandler (app true)) r acme).2)
    = Some StatusUnprocessableEntity.
Proof. cbv zeta. split_and!; vm_compute; reflexivity. Qed.

(** C5: when the store's SaveSettings fails, the generic internal error
    is the only status written.  On the code this fails: the handler
    writes 500 and then calls [WriteHeader(201)] too, since the error
    branch does not return. *)
Theorem SaveSettingsHandler_failure_also_writes_201 :
  seen (serve (SaveSettingsHandler (store false)) (request "{}") acme)
    = (Some StatusInternalServerError,
       [StatusInternalServerError; StatusCreated],
       [Json (ApiError (Text "internal error") "req-1")],
       [CallSaveSettings (Some Background) "{}"]).
Proof. vm_compute. reflexivity. Qed.

(** A wrong password for alice, and the right one under a frozen tenant. *)
Lemma login_suspended_same_status_as_bad_credentials_witness :
  let r1 := with_auth "alice@acme.io wrong" (request "") in
  let r2 := in_tenant "frozen" (with_auth "alice@acme.io secret123" (request "")) in
  let out1 := serve (AuthLoginHandler (app true)) r1 acme in
  let out2 := serve (AuthLoginHandler (app true)) r2 acme in
  status (resp out1.2) = Some StatusUnauthorized ∧
  status (resp out2.2) = Some StatusUnauthorized ∧
  status (resp out1.2) = status (resp out2.2) ∧
  rw_codes (resp out1.2) = rw_codes (resp out2.2).
Proof.
  cbv zeta.
  apply (login_suspended_same_status_as_bad_credentials
           (app true) (app true) _ _ acme acme acme acme
           "alice@acme.io" "wrong" "alice@acme.io" "secret123" None None);
    vm_compute; reflexivity.
Defined.

(** A body that does not decode, no tenant id, an email already taken, and
    a fresh user for tenant acme. *)
Lemma CreateTenantUserHandler_contract_witness :
  let run r := status (resp (serve (CreateTenantUserHandler (app true)) r acme).2) in
  run (request "no-separator") = Some StatusBadRequest ∧
  run (request "carol@acme.io longenough") = Some StatusNotFound ∧
  run (with_id "acme" (request "alice@acme.io longenough"))
    = Some StatusUnprocessableEntity ∧
  run (with_id "acme" (request "carol@acme.io longenough")) = Some StatusCreated.
Proof.
  cbv zeta. split_and!.
  - pose proof (CreateTenantUserHandler_contract (app true)
                  (request "no-separator") acme) as K.
    cbv zeta in K. destruct K as (K & _ & _).
    eapply K. vm_compute. reflexivity.
  - pose proof (CreateTenantUserHandler_contract (app true)
                  (request "carol@acme.io longenough") acme) as K.
    cbv zeta in K. destruct K as (_ & K & _).
    eapply K; vm_compute; reflexivity.
  - pose proof (CreateTenantUserHandler_contract (app true)
                  (with_id "acme" (request "alice@acme.io longenough")) acme) as K.
    cbv zeta in K. destruct K as (_ & _ & K).
    destruct (K {| uid := ""; email := "alice@acme.io"; password := "longenough" |})
      as (c & Hc & _ & _ & Kdup & _).
    + vm_compute. reflexivity.
    + vm_compute. discriminate.
    + vm_compute in Hc. injection Hc as <-.
      apply (Kdup acme). vm_compute. reflexivity.
  - pose proof (CreateTenantUserHandler_contract (app true)
                  (with_id "acme" (request "carol@acme.io longenough")) acme) as K.
    cbv zeta in K. destruct K as (_ & _ & K).
    destruct (K {| uid := ""; email := "carol@acme.io"; password := "longenough" |})
      as (c & Hc & _ & _ & _ & Kok).
    + vm_compute. reflexivity.
    + vm_compute. discriminate.
    + vm_compute in Hc. injection Hc as <-.
      eapply Kok. vm_compute. reflexivity.
Defined.

(** No tenant id; a tenant id alone; a tenant id and a user id; a backend
    that is down. *)
Lemma DeleteTokensHandler_contract_witness :
  let run r := seen (serve (DeleteTokensHandler (app true)) r acme) in
  (run (request "")).1.1.1 = Some StatusBadRequest ∧
  (run (request "")).2 = [] ∧
  (run (with_query "tenant_id" "acme" (request ""))).1.1.1 = Some StatusNoContent ∧
  (run (with_query "user_id" "1" (with_query "tenant_id" "acme" (request "")))).1.1.1
    = Some StatusNoContent ∧
  (run (with_query "tenant_id" "down" (request ""))).1.1.1
    = Some StatusInternalServerError.
Proof.
  cbv zeta. unfold seen. cbn [fst snd]. split_and!.
  - pose proof (DeleteTokensHandler_contract (app true) (request "") acme) as K.
    cbv zeta in K. destruct K as (K0 & K & _ & _).
    apply K. apply K0. vm_compute. reflexivity.
  - pose proof (DeleteTokensHandler_contract (app true) (request "") acme) as K.
    cbv zeta in K. destruct K as (K0 & K & _ & _).
    apply K. apply K0. vm_compute. reflexivity.
  - pose proof (DeleteTokensHandler_contract (app true)
                  (with_query "tenant_id" "acme" (request "")) acme) as K.
    cbv zeta in K. destruct K as (_ & _ & K & _).
    destruct K as (_ & K & _); [vm_compute; discriminate|].
    eapply K. vm_compute. reflexivity.
  - pose proof (DeleteTokensHandler_contract (app true)
                  (with_query "user_id" "1"
                     (with_query "tenant_id" "acme" (request ""))) acme) as K.
    cbv zeta in K. destruct K as (_ & _ & K & _).
    destruct K as (_ & K & _); [vm_compute; discriminate|].
    eapply K. vm_compute. reflexivity.
  - pose proof (DeleteTokensHandler_contract (app true)
                  (with_query "tenant_id" "down" (request "")) acme) as K.
    cbv zeta in K. destruct K as (_ & _ & K & _).
    destruct K as (_ & _ & K); [vm_compute; discriminate|].
    eapply K. vm_compute. reflexivity.
Defined.

(** A user that exists, an id nobody has, and a lookup that fails. *)
Lemma GetUserHandler_contract_witness :
  let run r := seen (serve (GetUserHandler (app true)) r acme) in
  (run (with_id "1" (request ""))).1.1.1 = Some StatusOK ∧
  (run (with_id "1" (request ""))).1.2 = [Json (JsonUser alice)] ∧
  (run (with_id "9" (request ""))).1.1.1 = Some StatusNotFound ∧
  (run (with_id "!" (request ""))).1.1.1 = Some StatusInternalServerError.
Proof.
  cbv zeta. unfold seen. cbn [fst snd]. split_and!.
  - pose proof (GetUserHandler_contract (app true) (with_id "1" (request ""))
                  acme acme (Some alice) None) as K.
    cbv zeta in K. destruct K as (_ & _ & K & _); [vm_compute; reflexivity|].
    by apply (K alice).
  - pose proof (GetUserHandler_contract (app true) (with_id "1" (request ""))
                  acme acme (Some alice) None) as K.
    cbv zeta in K. destruct K as (_ & _ & K & _); [vm_compute; reflexivity|].
    by apply (K alice).
  - pose proof (GetUserHandler_contract (app true) (with_id "9" (request ""))
                  acme acme None None) as K.
    cbv zeta in K. destruct K as (K & _); [vm_compute; reflexivity|].
    by apply K.
  - pose proof (GetUserHandler_contract (app true) (with_id "!" (request ""))
                  acme acme None (Some store_ErrUserNotFound)) as K.
    cbv zeta in K. destruct K as (_ & _ & _ & K); [vm_compute; reflexivity|].
    by apply (K store_ErrUserNotFound).
Defined.

(** A fresh email, and one that alice already has. *)
Lemma AddUserHandler_contract_witness :
  let out r := serve (AddUserHandler (app true)) r acme in
  let carol := request "carol@acme.io longenough" in
  let again := request "alice@acme.io longenough" in
  status (resp (out carol).2) = Some StatusCreated ∧
  sentHeader (resp (out carol).2) "Location" = Some ["users/id-carol@acme.io"] ∧
  status (resp (out again).2) = Some StatusUnprocessableEntity ∧
  sentHeader (resp (out again).2) "Location" = None.
Proof.
  cbv zeta.
  pose proof (AddUserHandler_contract (app true)
                (request "carol@acme.io longenough") acme
                {| uid := ""; email := "carol@acme.io"; password := "longenough" |})
    as K1.
  pose proof (AddUserHandler_contract (app true)
                (request "alice@acme.io longenough") acme
                {| uid := ""; email := "alice@acme.io"; password := "longenough" |})
    as K2.
  cbv zeta in K1, K2.
  destruct K1 as (K1 & _); [vm_compute; reflexivity|].
  destruct K2 as (_ & K2); [vm_compute; reflexivity|].
  destruct (K1 {| uid := "id-carol@acme.io"; email := "carol@acme.io";
                  password := "longenough" |}
               (acme ++ [{| uid := "id-carol@acme.io"; email := "carol@acme.io";
                            password := "longenough" |}]))
    as (H1 & _ & H2); [vm_compute; reflexivity|].
  destruct (K2 {| uid := ""; email := "alice@acme.io"; password := "longenough" |} acme)
    as (H3 & _ & H4 & _); [vm_compute; reflexivity|].
  split_and!; [exact H1|exact H2|exact H3|exact H4].
Defined.

(** No header, a header that does not parse, a good login, and a good
    login when signing fails. *)
Lemma AuthLoginHandler_contract_witness :
  let out key r := serve (AuthLoginHandler (app key)) r acme in
  let good := with_auth "alice@acme.io secret123" (request "") in
  status (resp (out true (request "")).2) = Some StatusUnauthorized ∧
  calls (out true (request "")).2 = [] ∧
  status (resp (out true (with_auth "Bearer" (request ""))).2)
    = Some StatusUnauthorized ∧
  status (resp (out true good).2) = Some StatusOK ∧
  rw_body (resp (out true good).2) = [Raw "jwt.1"] ∧
  sentHeader (resp (out true good).2) "Content-Type" = Some ["application/jwt"] ∧
  status (resp (out false good).2) = Some StatusInternalServerError.
Proof.
  cbv zeta.
  pose proof (AuthLoginHandler_contract (app true) (request "") acme) as K1.
  pose proof (AuthLoginHandler_contract (app true)
                (with_auth "Bearer" (request "")) acme) as K2.
  pose proof (AuthLoginHandler_contract (app true)
                (with_auth "alice@acme.io secret123" (request "")) acme) as K3.
  pose proof (AuthLoginHandler_contract (app false)
                (with_auth "alice@acme.io secret123" (request "")) acme) as K4.
  cbv zeta in K1, K2, K3, K4.
  destruct K1 as (K0 & K1 & _ & _).
  destruct K1 as (H1 & H2 & _); [left; apply K0; vm_compute; reflexivity|].
  destruct K2 as (_ & K2 & _ & _).
  destruct K2 as (H3 & _); [right; vm_compute; reflexivity|].
  destruct K3 as (_ & _ & K3 & _).
  destruct (K3 "alice@acme.io" "secret123" (Some "1") "jwt.1" acme acme)
    as (H4 & H5 & H6); [vm_compute; reflexivity ..|].
  destruct K4 as (_ & _ & _ & K4).
  destruct (K4 "alice@acme.io" "secret123" (Some "1") ""
               (errors_New "no signing key") acme acme)
    as (H7 & _); [vm_compute; reflexivity ..|].
  split_and!; [exact H1|exact H2|exact H3|exact H4|exact H5|exact H6|exact H7].
Defined.

(** A nil context with a tenant id, and a request context with none. *)
Lemma getTenantContext_total_witness :
  (∃ id, getTenantContext None "acme" = Done (Some (WithIdentity Background id)) ∧
         Tenant id = "acme") ∧
  getTenantContext (Some (WithOther Background "request-id" "req-1")) ""
    = Done (Some (WithOther Background "request-id" "req-1")).
Proof.
  split.
  - destruct (getTenantContext_total None "acme") as (c & Hres & Hne & _ & Hnil).
    destruct Hnil as (_ & _ & (id & ->)); [reflexivity|discriminate|].
    destruct Hne as (id' & Hid & Ht); [discriminate|].
    injection Hid as <-. exists id. split; [exact Hres|exact Ht].
  - destruct (getTenantContext_total
                (Some (WithOther Background "request-id" "req-1")) "")
      as (c & Hres & _ & Hempty & _).
    destruct Hempty as (Hc & _); [reflexivity|].
    pose proof (Hc _ eq_refl) as Heq. subst c. exact Hres.
Defined.

(** * The further contracts on the sample deployment *)

(** A new user, and an update of alice: what the application received had
    passed the validator. *)
Lemma application_receives_validated_input_witness :
  let r := request "carol@acme.io longenough" in
  let u := {| uid := ""; email := "carol@acme.io"; password := "longenough" |} in
  (CallCreateUser (Some Background) u
     ∈ calls (serve (AddUserHandler (app true)) r acme).2 ∧
   User_ValidateNew u = None) ∧
  (CallCreateUserInternal
     (Some (WithIdentity Background {| Subject := ""; Tenant := "acme" |})) u
     ∈ calls (serve (CreateTenantUserHandler (app true)) (with_id "acme" r) acme).2 ∧
   UserInternal_ValidateNew u = None) ∧
  (CallUpdateUser (Some Background) "1" u
     ∈ calls (serve (UpdateUserHandler (app true)) (with_id "1" r) acme).2 ∧
   UserUpdate_Validate u = None).
Proof.
  cbv zeta. split_and!.
  - vm_compute. constructor.
  - assert (CallCreateUser (Some Background)
              {| uid := ""; email := "carol@acme.io"; password := "longenough" |}
              ∈ calls (serve (AddUserHandler (app true))
                         (request "carol@acme.io longenough") acme).2) as Hin
      by (vm_compute; constructor).
    destruct (application_receives_validated_input (app true)
                (request "carol@acme.io longenough") acme) as (K & _ & _).
    by destruct (K _ _ Hin) as (_ & _ & _ & ?).
  - vm_compute. constructor.
  - assert (CallCreateUserInternal
              (Some (WithIdentity Background {| Subject := ""; Tenant := "acme" |}))
              {| uid := ""; email := "carol@acme.io"; password := "longenough" |}
              ∈ calls (serve (CreateTenantUserHandler (app true))
                         (with_id "acme" (request "carol@acme.io longenough"))
                         acme).2) as Hin
      by (vm_compute; constructor).
    destruct (application_receives_validated_input (app true)
                (with_id "acme" (request "carol@acme.io longenough")) acme)
      as (_ & K & _).
    by destruct (K _ _ Hin) as (_ & _ & _ & _ & ?).
  - vm_compute. constructor.
  - assert (CallUpdateUser (Some Background) "1"
              {| uid := ""; email := "carol@acme.io"; password := "longenough" |}
              ∈ calls (serve (UpdateUserHandler (app true))
                         (with_id "1" (request "carol@acme.io longenough"))
                         acme).2) as Hin
      by (vm_compute; constructor).
    destruct (application_receives_validated_input (app true)
                (with_id "1" (request "carol@acme.io longenough")) acme)
      as (_ & _ & K).
    by destruct (K _ _ _ Hin) as (_ & _ & _ & _ & ?).
Defined.

(** A body that does not decode, and an empty one. *)
Lemma decode_failure_is_bad_request_witness :
  status (resp (serve (AddUserHandler (app true)) (request "no-separator") acme).2)
    = Some StatusBadRequest ∧
  status (resp (serve (UpdateUserHandler (app true))
                  (with_id "1" (request "no-separator")) acme).2)
    = Some StatusBadRequest ∧
  DecodeJsonPayload unmarshal_User (request "") = inl rest_ErrJsonPayloadEmpty.
Proof.
  split_and!.
  - pose proof (decode_failure_is_bad_request (app true)
                  (request "no-separator") acme) as K.
    cbv zeta in K. destruct K as (K & _ & _).
    pose proof (K (errors_New "unexpected end of JSON input") eq_refl) as E.
    exact (f_equal (λ x, x.1.1.1) E).
  - pose proof (decode_failure_is_bad_request (app true)
                  (with_id "1" (request "no-separator")) acme) as K.
    cbv zeta in K. destruct K as (_ & K & _).
    pose proof (K (errors_New "unexpected end of JSON input") eq_refl) as E.
    exact (f_equal (λ x, x.1.1.1) E).
  - pose proof (decode_failure_is_bad_request (app true) (request "") acme) as K.
    cbv zeta in K. destruct K as (_ & _ & K). by destruct K.
Defined.

(** An update of alice to bob's email, to a fresh one, and of nobody. *)
Lemma UpdateUserHandler_client_view_witness :
  let run i body := status (resp (serve (UpdateUserHandler (app true))
                                    (with_id i (request body)) acme).2) in
  run "1" "bob@acme.io longenough" = Some StatusUnprocessableEntity ∧
  run "1" "carol@acme.io longenough" = Some StatusNoContent ∧
  run "7" "carol@acme.io longenough" = Some StatusNotFound.
Proof.
  cbv zeta. split_and!.
  - pose proof (UpdateUserHandler_client_view (app true)
                  (with_id "1" (request "bob@acme.io longenough")) acme acme
                  {| uid := ""; email := "bob@acme.io"; password := "longenough" |}
                  (Some store_ErrDuplicateEmail) eq_refl eq_refl) as K.
    cbv zeta in K. destruct K as (_ & K). exact (proj1 K).
  - pose proof (UpdateUserHandler_client_view (app true)
                  (with_id "1" (request "carol@acme.io longenough")) acme
                  [ {| uid := "1"; email := "carol@acme.io";
                       password := "longenough" |}; bob ]
                  {| uid := ""; email := "carol@acme.io"; password := "longenough" |}
                  None eq_refl eq_refl) as K.
    cbv zeta in K. destruct K as (_ & K). exact (proj1 K).
  - pose proof (UpdateUserHandler_client_view (app true)
                  (with_id "7" (request "carol@acme.io longenough")) acme acme
                  {| uid := ""; email := "carol@acme.io"; password := "longenough" |}
                  (Some store_ErrUserNotFound) eq_refl eq_refl) as K.
    cbv zeta in K. destruct K as (_ & K). exact (proj1 K).
Defined.

(** A store that is down, and one that is up. *)
Lemma SaveSettingsHandler_client_view_witness :
  status (resp (serve (SaveSettingsHandler (store false)) (request "{}") acme).2)
    = Some StatusInternalServerError ∧
  status (resp (serve (SaveSettingsHandler (store true)) (request "{}") acme).2)
    = Some StatusCreated.
Proof.
  split.
  - pose proof (SaveSettingsHandler_client_view (store false) (request "{}")
                  acme acme "{}" (Some (errors_New "no reachable servers"))
                  eq_refl eq_refl) as K.
    cbv zeta in K. destruct K as (_ & _ & K). exact (proj1 K).
  - pose proof (SaveSettingsHandler_client_view (store true) (request "{}")
                  acme acme "{}" None eq_refl eq_refl) as K.
    cbv zeta in K. destruct K as (_ & _ & K). exact (proj1 K).
Defined.

(** A wrong password, and a backend that cannot be reached. *)
Lemma AuthLoginHandler_login_failure_witness :
  let r := with_auth "alice@acme.io wrong" (request "") in
  seen (serve (AuthLoginHandler (app true)) r acme)
    = (Some StatusUnauthorized, [StatusUnauthorized],
       [Json (ApiError (ErrorOf useradm_ErrUnauthorized) "req-1")],
       [CallLogin (Some Background) "alice@acme.io" "wrong"]) ∧
  status (resp (serve (AuthLoginHandler SampleRest.down_app) r acme).2)
    = Some StatusInternalServerError.
Proof.
  cbv zeta. split.
  - pose proof (AuthLoginHandler_login_failure (app true)
                  (with_auth "alice@acme.io wrong" (request "")) acme acme
                  "alice@acme.io" "wrong" None useradm_ErrUnauthorized) as K.
    cbv zeta in K.
    destruct K as (Hc & _ & K & _); [vm_compute; reflexivity ..|].
    destruct K as (Hs & Hb); [by left|].
    unfold seen. rewrite Hc, Hs, Hb. vm_compute. reflexivity.
  - pose proof (AuthLoginHandler_login_failure SampleRest.down_app
                  (with_auth "alice@acme.io wrong" (request "")) acme acme
                  "alice@acme.io" "wrong" None SampleRest.unreachable) as K.
    cbv zeta in K.
    destruct K as (_ & _ & _ & K); [vm_compute; reflexivity ..|].
    by destruct K.
Defined.

(** A lookup that fails on two different backends, and a revocation on a
    backend that is down. *)
Lemma internal_error_is_opaque_witness :
  resp (serve (GetUserHandler (app true)) (with_id "!" (request "")) acme).2
    = resp (serve (GetUserHandler SampleRest.down_app)
              (with_id "!" (request "")) []).2 ∧
  logged (serve (GetUserHandler (app true)) (with_id "!" (request "")) acme).2
    = [(errors_Wrap store_ErrUserNotFound "internal error", Text "internal error")] ∧
  resp (serve (DeleteTokensHandler (app true))
          (with_query "tenant_id" "down" (request "")) acme).2
    = resp (serve (DeleteTokensHandler SampleRest.down_app)
              (with_query "tenant_id" "down" (request "")) []).2.
Proof.
  destruct (internal_error_is_opaque (app true) SampleRest.down_app
              (with_id "!" (request "")) acme [] acme []
              store_ErrUserNotFound SampleRest.unreachable) as (K & _).
  destruct (K None None) as (H1 & H2); [vm_compute; reflexivity ..|].
  destruct (internal_error_is_opaque (app true) SampleRest.down_app
              (with_query "tenant_id" "down" (request "")) acme [] acme []
              (errors_New "no reachable servers") SampleRest.unreachable)
    as (_ & K').
  destruct K' as (H3 & _);
    [vm_compute; discriminate|vm_compute; reflexivity ..|].
  split_and!; [exact H1|exact H2|exact H3].
Defined.

(** A fresh email: 201 and a Location header. *)
Lemma AddUserHandler_location_iff_created_witness :
  is_Some (sentHeader
             (resp (serve (AddUserHandler (app true))
                      (request "carol@acme.io longenough") acme).2)
             "Location").
Proof.
  apply (AddUserHandler_location_iff_created (app true)
           (request "carol@acme.io longenough") acme).
  vm_compute. reflexivity.
Defined.

(** A request context with a request id, given tenant acme and then
    tenant globex. *)
Lemma getTenantContext_keeps_values_witness :
  let ctx := Some (WithOther Background "request-id" "req-1") in
  let c1 := Some (WithIdentity (WithOther Background "request-id" "req-1")
                    {| Subject := ""; Tenant := "acme" |}) in
  let c2 := Some (WithIdentity
                    (WithIdentity (WithOther Background "request-id" "req-1")
                       {| Subject := ""; Tenant := "acme" |})
                    {| Subject := ""; Tenant := "globex" |}) in
  getTenantContext ctx "acme" = Done c1 ∧
  getTenantContext c1 "globex" = Done c2 ∧
  Context_Value c2 "request-id" = Some "req-1" ∧
  identity_FromContext c2 = Some {| Subject := ""; Tenant := "globex" |}.
Proof.
  cbv zeta.
  destruct (getTenantContext_keeps_values
              (Some (WithOther Background "request-id" "req-1")) _ _
              "acme" "globex" eq_refl eq_refl) as (_ & Hv & Hid & _).
  split_and!; [reflexivity|reflexivity|exact (Hv "request-id")|].
  apply Hid. discriminate.
Defined.

(** A backend that cannot be reached, on both creation paths. *)
Lemma unclassified_errors_are_internal_witness :
  let r := request "carol@acme.io longenough" in
  status (resp (serve (AddUserHandler SampleRest.down_app) r acme).2)
    = Some StatusInternalServerError ∧
  status (resp (serve (CreateTenantUserHandler SampleRest.down_app)
                  (with_id "acme" r) acme).2)
    = Some StatusInternalServerError.
Proof.
  cbv zeta. split.
  - destruct (unclassified_errors_are_internal SampleRest.down_app
                (request "carol@acme.io longenough") acme acme
                SampleRest.unreachable) as (K & _); [discriminate|].
    pose proof (K {| uid := ""; email := "carol@acme.io";
                     password := "longenough" |}
                  {| uid := ""; email := "carol@acme.io";
                     password := "longenough" |} eq_refl eq_refl) as K1.
    cbv zeta in K1. exact (proj1 K1).
  - destruct (unclassified_errors_are_internal SampleRest.down_app
                (with_id "acme" (request "carol@acme.io longenough")) acme acme
                SampleRest.unreachable) as (_ & K); [discriminate|].
    pose proof (K {| uid := ""; email := "carol@acme.io";
                     password := "longenough" |} Background) as K1.
    cbv zeta in K1.
    destruct K1 as (K1 & _);
      [vm_compute; reflexivity|vm_compute; discriminate
      |vm_compute; reflexivity|vm_compute; reflexivity|exact K1].
Defined.


(** Deleting alice, and a deletion the application refuses as not found. *)
Lemma DeleteUserHandler_contract_witness :
  let out i := serve (DeleteUserHandler SampleRest.app) (with_id i (request "")) acme in
  status (resp (out "1").2) = Some StatusNoContent ∧
  backend (out "1").2 = [bob] ∧
  status (resp (out "!").2) = Some StatusInternalServerError.
Proof.
  cbv zeta.
  pose proof (DeleteUserHandler_contract (ReqToken := string) SampleRest.app
                (with_id "1" (request "")) acme [bob] None) as K1.
  pose proof (DeleteUserHandler_contract (ReqToken := string) SampleRest.app
                (with_id "!" (request "")) acme acme
                (Some store_ErrUserNotFound)) as K2.
  cbv zeta in K1, K2.
  destruct K1 as (_ & Hb & K1 & _); [vm_compute; reflexivity|].
  destruct K2 as (_ & _ & _ & K2); [vm_compute; reflexivity|].
  split_and!; [by destruct K1|exact Hb|by destruct (K2 store_ErrUserNotFound)].
Defined.

(** A body that does not decode, one without a tenant id, a tenant that
    exists, and a new tenant. *)
Lemma CreateTenantHandler_contract_witness :
  let run body :=
    status (resp (serve (CreateTenantHandler SampleRest.unmarshal_tenant
                           SampleRest.required SampleRest.app)
                    (request body) acme).2) in
  run "{" = Some StatusBadRequest ∧
  run "{}" = Some StatusBadRequest ∧
  run "acme" = Some StatusInternalServerError ∧
  run "globex" = Some StatusCreated.
Proof.
  cbv zeta. split_and!.
  - pose proof (CreateTenantHandler_contract SampleRest.unmarshal_tenant
                  SampleRest.required SampleRest.app (request "{") acme) as K.
    cbv zeta in K. destruct K as (_ & K & _).
    by destruct (K (errors_New "unexpected end of JSON input") eq_refl).
  - pose proof (CreateTenantHandler_contract SampleRest.unmarshal_tenant
                  SampleRest.required SampleRest.app (request "{}") acme) as K.
    cbv zeta in K. destruct K as (_ & _ & K & _).
    by destruct (K {| TenantID := "" |} eq_refl eq_refl).
  - pose proof (CreateTenantHandler_contract SampleRest.unmarshal_tenant
                  SampleRest.required SampleRest.app (request "acme") acme) as K.
    cbv zeta in K. destruct K as (_ & _ & _ & K).
    destruct (K {| TenantID := "acme" |} (Some (errors_New "tenant exists")) acme)
      as (_ & K1); [reflexivity|discriminate|reflexivity|].
    exact (proj1 K1).
  - pose proof (CreateTenantHandler_contract SampleRest.unmarshal_tenant
                  SampleRest.required SampleRest.app (request "globex") acme) as K.
    cbv zeta in K. destruct K as (_ & _ & _ & K).
    destruct (K {| TenantID := "globex" |} None acme)
      as (_ & K1); [reflexivity|discriminate|reflexivity|].
    exact (proj1 K1).
Defined.
